(** * SeaweedFS mount layer: the Entry model and the symlink operations

    A shallow embedding of [weed/filer/entry.go] and
    [weed/mount/weedfs_symlink.go].  Go packages become modules, structs
    become records, a possibly-nil pointer becomes an [option], a Go map
    becomes a [gmap], and the mount's mutable state is threaded explicitly
    through every operation.  Machine integers are [Z] with their
    wrap-around written out where a conversion can wrap. *)

From Stdlib Require Import ZArith Lia Ascii String List Bool.
From stdpp Require Import gmap strings list fin_maps.

Local Open Scope string_scope.
Local Open Scope list_scope.
Local Open Scope Z_scope.

(** ** Go basics *)

(** A byte slice and a Go string are both byte sequences; the conversions
    [string(b)] and [[]byte(s)] copy the bytes unchanged.  A nil slice and
    an empty one have the same length and the same elements. *)
Abbreviation bytes := string.

(** The [error] interface: [None] is the nil error. *)
Definition error := option string.

(** A value of a call that may fault (nil dereference) instead of
    returning. *)
Inductive outcome (A : Type) : Type :=
| Return (a : A)
| Panic.
Arguments Return {A} a.
Arguments Panic {A}.

#[global] Instance outcome_ret : MRet outcome := fun _ a => Return a.
#[global] Instance outcome_bind : MBind outcome := fun _ _ k m =>
  match m with
  | Return a => k a
  | Panic => Panic
  end.

(** [*p] for a pointer [p]: a nil pointer faults. *)
Definition deref {A} (p : option A) : outcome A :=
  match p with
  | Some a => Return a
  | None => Panic
  end.

Definition uint64 (x : Z) : Z := x mod 2 ^ 64.
Definition uint32 (x : Z) : Z := x mod 2 ^ 32.

Definition byte_code (c : ascii) : Z := Z.of_N (N_of_ascii c).
Definition byte_of (n : Z) : ascii := ascii_of_N (Z.to_N n).

(** ** Package [os]: file mode bits *)
Module os.
Definition ModeDir : Z := 2 ^ 31.
Definition ModeSymlink : Z := 2 ^ 27.
End os.

(** ** Package [strconv] and the [%d] verb of [fmt] *)
Module strconv.

Definition ErrSyntax : error := Some "invalid syntax".
Definition ErrRange : error := Some "value out of range".

Definition maxUint64 : Z := 2 ^ 64 - 1.

(** The digit loop of [ParseUint(s, 10, 64)].  In base 10 every byte
    other than ['0'..'9'] ends in a syntax error (a letter decodes to a
    digit value of at least 10, an underscore is only skipped in base
    0). *)
Fixpoint parseUint_loop (cs : list ascii) (n : Z) : Z * error :=
  match cs with
  | [] => (n, None)
  | c :: cs' =>
      let c := byte_code c in
      if (48 <=? c) && (c <=? 57) then
        let d := c - 48 in
        if n >=? maxUint64 / 10 + 1 then (maxUint64, ErrRange)
        else
          let n := n * 10 in
          let n1 := uint64 (n + d) in
          if (n1 <? n) || (n1 >? maxUint64) then (maxUint64, ErrRange)
          else parseUint_loop cs' n1
      else (0, ErrSyntax)
  end.

Definition ParseUint10 (s : list ascii) : Z * error :=
  match s with
  | [] => (0, ErrSyntax)
  | _ => parseUint_loop s 0
  end.

(** [ParseInt(s, 10, 0)] with a 64-bit [int]. *)
Definition ParseInt10 (s : list ascii) : Z * error :=
  match s with
  | [] => (0, ErrSyntax)
  | c :: s' =>
      let neg := Ascii.eqb c "-" in
      let s1 := if Ascii.eqb c "+" || neg then s' else s in
      let '(un, err) := ParseUint10 s1 in
      if bool_decide (err <> None) && bool_decide (err <> ErrRange)
      then (0, err)
      else
        let cutoff := 2 ^ 63 in
        if negb neg && (un >=? cutoff) then (cutoff - 1, ErrRange)
        else if neg && (un >? cutoff) then (- cutoff, ErrRange)
        else (if neg then - un else un, None)
  end.

(** The fast path of [Atoi]: fewer than 19 bytes, so the accumulator
    stays below [10^18] and cannot overflow. *)
Fixpoint atoi_fast_loop (cs : list ascii) (n : Z) : Z * error :=
  match cs with
  | [] => (n, None)
  | c :: cs' =>
      let ch := (byte_code c - 48) mod 256 in
      if ch >? 9 then (0, ErrSyntax)
      else atoi_fast_loop cs' (n * 10 + ch)
  end.

Definition Atoi (s : string) : Z * error :=
  let cs := list_ascii_of_string s in
  let sLen := Z.of_nat (List.length cs) in
  if (0 <? sLen) && (sLen <? 19) then
    match cs with
    | [] => (0, ErrSyntax)
    | c :: cs' =>
        let signed := Ascii.eqb c "-" || Ascii.eqb c "+" in
        let ds := if signed then cs' else cs in
        match ds with
        | [] => (0, ErrSyntax)
        | _ =>
            let '(n, err) := atoi_fast_loop ds 0 in
            match err with
            | Some _ => (0, err)
            | None => (if Ascii.eqb c "-" then - n else n, None)
            end
        end
    end
  else ParseInt10 cs.

(** The digits of [u], most significant first, as [fmt] writes them
    from the end of its buffer; 20 digits are enough for a [uint64]. *)
Fixpoint fmt_digits (fuel : nat) (u : Z) (acc : list ascii) : list ascii :=
  match fuel with
  | O => acc
  | S fuel' =>
      if u <? 10 then byte_of (48 + u) :: acc
      else fmt_digits fuel' (u / 10) (byte_of (48 + u mod 10) :: acc)
  end.

(** [fmt.Sprintf("%d", b)] for an [int64]. *)
Definition Sprintf_d (b : Z) : string :=
  if b <? 0
  then String "-" (string_of_list_ascii (fmt_digits 20 (- b) []))
  else string_of_list_ascii (fmt_digits 20 b []).

End strconv.

(** The address of a heap object, for pointers that the code only copies
    and compares. *)
Definition ptr := positive.

(** A Go map of byte slices that may be nil.  Reading a nil map or an
    absent key gives the zero value, a nil slice. *)
Definition gomap := option (gmap string bytes).

Definition map_index (m : gomap) (k : string) : bytes :=
  match m with
  | Some m => default "" (m !! k)
  | None => ""
  end.

Definition len (b : bytes) : Z := Z.of_nat (String.length b).

(** ** Package [fuse]: status codes *)
Module fuse.
Definition Status := Z.
Definition OK : Status := 0.
Definition ENOENT : Status := 2.
Definition EIO : Status := 5.
Definition EINVAL : Status := 22.
Definition ENOSPC : Status := 28.

Record InHeader := { NodeId : Z; Uid : Z; Gid : Z }.
End fuse.

(** ** Package [filer_pb]: the wire messages

    The generated message types are not among the sources; the records
    carry the fields that [entry.go] and [weedfs_symlink.go] read and
    write. *)
Module filer_pb.

Record FileChunk := { FileId : string; Offset : Z; Size : Z }.

Record FuseAttributes := {
  FileSize : Z;
  Mtime : Z;
  FileMode : Z;
  Uid : Z;
  Gid : Z;
  Crtime : Z;
  Mime : string;
  TtlSec : Z;
  UserName : string;
  GroupName : list string;
  SymlinkTarget : string;
  Md5 : bytes;
  Rdev : Z;
  Inode : Z }.

Record Entry := {
  Name : string;
  IsDirectory : bool;
  Chunks : list FileChunk;
  Attributes : option FuseAttributes;
  Extended : gomap;
  HardLinkId : bytes;
  HardLinkCounter : Z;
  Content : bytes;
  RemoteEntry : option ptr;
  Quota : Z }.

Record CreateEntryRequest := {
  Directory : string;
  Entry_ : option Entry;
  Signatures : list Z }.

Record FullEntry := { Dir : string; FullEntry_Entry : option Entry }.

(** [&filer_pb.Entry{}] *)
Definition Entry_zero : Entry :=
  {| Name := ""; IsDirectory := false; Chunks := []; Attributes := None;
     Extended := None; HardLinkId := ""; HardLinkCounter := 0;
     Content := ""; RemoteEntry := None; Quota := 0 |}.

End filer_pb.

(** ** Package [util]

    [weed/util] is represented in the sources by [constants.go] only.  The
    byte-size codec and the path helpers that [entry.go] and
    [weedfs_symlink.go] call are an interface here; everything below holds
    for each of its implementations. *)
Module util.

Abbreviation FullPath := string.

Class Fns := {
  (** [ParseBytes(s) (uint64, error)] *)
  ParseBytes : string -> Z * error;
  (** [BytesToHumanReadable(b uint64) string] *)
  BytesToHumanReadable : Z -> string;
  NewFullPath : string -> string -> FullPath;
  Name : FullPath -> string;
  DirAndName : FullPath -> string * string;
  Child : FullPath -> string -> FullPath }.

End util.

(** ** Package [filer]: [entry.go] *)
Module filer.

Record Attr := {
  Mtime : Z;
  Crtime : Z;
  Mode : Z;
  Uid : Z;
  Gid : Z;
  Mime : string;
  TtlSec : Z;
  UserName : string;
  GroupNames : list string;
  SymlinkTarget : string;
  Md5 : bytes;
  FileSize : Z;
  Rdev : Z;
  Inode : Z }.

Definition Attr_zero : Attr :=
  {| Mtime := 0; Crtime := 0; Mode := 0; Uid := 0; Gid := 0; Mime := "";
     TtlSec := 0; UserName := ""; GroupNames := []; SymlinkTarget := "";
     Md5 := ""; FileSize := 0; Rdev := 0; Inode := 0 |}.

Definition IsDirectory (attr : Attr) : bool :=
  Z.land (Mode attr) os.ModeDir >? 0.

Record Entry := {
  FullPath : util.FullPath;
  attr : Attr;
  Extended : gomap;
  Chunks : list filer_pb.FileChunk;
  HardLinkId : bytes;
  HardLinkCounter : Z;
  Content : bytes;
  Remote : option ptr;
  Quota : Z }.

(** [&Entry{}] *)
Definition Entry_zero : Entry :=
  {| FullPath := ""; attr := Attr_zero; Extended := None; Chunks := [];
     HardLinkId := ""; HardLinkCounter := 0; Content := "";
     Remote := None; Quota := 0 |}.

(** [entry.Extended = m] and [entry.FullPath = p] on a non-nil entry *)
Definition set_Extended (entry : Entry) (m : gomap) : Entry :=
  {| FullPath := FullPath entry; attr := attr entry; Extended := m;
     Chunks := Chunks entry; HardLinkId := HardLinkId entry;
     HardLinkCounter := HardLinkCounter entry; Content := Content entry;
     Remote := Remote entry; Quota := Quota entry |}.

Definition set_FullPath (entry : Entry) (p : util.FullPath) : Entry :=
  {| FullPath := p; attr := attr entry; Extended := Extended entry;
     Chunks := Chunks entry; HardLinkId := HardLinkId entry;
     HardLinkCounter := HardLinkCounter entry; Content := Content entry;
     Remote := Remote entry; Quota := Quota entry |}.

Definition XATTR_PREFIX := "xattr-".
Definition Size_Quota_Key := "quota-size".
Definition Size_Key := "size".
Definition Inode_Quota_Key := "quota-inode".
Definition Inode_Key := "inode".

(** The functions of package [filer] that [entry.go] calls and that live
    in files outside the sources. *)
Class Helpers := {
  TotalSize : list filer_pb.FileChunk -> Z;
  EntryAttributeToPb : Entry -> option filer_pb.FuseAttributes;
  PbToEntryAttribute : option filer_pb.FuseAttributes -> Attr }.

Definition maxUint64 (x y : Z) : Z := if x >? y then x else y.

Section entry.
Context `{util.Fns} `{Helpers}.

Definition Size (entry : Entry) : Z :=
  maxUint64 (maxUint64 (TotalSize (Chunks entry)) (FileSize (attr entry)))
            (uint64 (len (Content entry))).

Definition GetXAttrSize (entry : Entry) : Z :=
  let val := map_index (Extended entry) (XATTR_PREFIX +:+ Size_Key) in
  if len val =? 0 then 0
  else
    let '(b, err) := util.ParseBytes val in
    match err with
    | Some _ => 0
    | None => b
    end.

(** [entry.Extended[key] = val], after the lazy allocation of the map *)
Definition store_xattr (entry : Entry) (key : string) (val : bytes) : Entry :=
  let ext := match Extended entry with
             | None => ∅
             | Some m => m
             end in
  set_Extended entry (Some (<[key := val]> ext)).

Definition SetXAttrSize (entry : Entry) (b : Z) : Entry :=
  let b := if b <? 0 then 0 else b in
  store_xattr entry (XATTR_PREFIX +:+ Size_Key)
              (util.BytesToHumanReadable (uint64 b)).

Definition SetXAttrSizeQuota (entry : Entry) (b : Z) : Entry :=
  let b := if b <? 0 then 0 else b in
  store_xattr entry (XATTR_PREFIX +:+ Size_Quota_Key)
              (util.BytesToHumanReadable (uint64 b)).

Definition GetXAttrInodeCount (entry : Entry) : Z :=
  let val := map_index (Extended entry) (XATTR_PREFIX +:+ Inode_Key) in
  if len val =? 0 then 0
  else
    let '(b, _) := strconv.Atoi val in
    uint64 b.

Definition SetXAttrInodeCount (entry : Entry) (b : Z) : Entry :=
  let b := if b <? 0 then 0 else b in
  store_xattr entry (XATTR_PREFIX +:+ Inode_Key) (strconv.Sprintf_d b).

Definition SetXAttrInodeCountQuota (entry : Entry) (b : Z) : Entry :=
  let b := if b <? 0 then 0 else b in
  store_xattr entry (XATTR_PREFIX +:+ Inode_Quota_Key) (strconv.Sprintf_d b).

Definition GetXAttrSizeQuota (entry : Entry) : Z :=
  let val := map_index (Extended entry) (XATTR_PREFIX +:+ Size_Quota_Key) in
  if len val =? 0 then 0
  else
    let '(b, err) := util.ParseBytes val in
    match err with
    | Some _ => 0
    | None => b
    end.

Definition GetXAttrInodeQuota (entry : Entry) : Z :=
  let val := map_index (Extended entry) (XATTR_PREFIX +:+ Inode_Quota_Key) in
  if len val =? 0 then 0
  else
    let '(b, _) := strconv.Atoi val in
    uint64 b.

Definition Timestamp (entry : Entry) : Z :=
  if IsDirectory (attr entry) then Crtime (attr entry) else Mtime (attr entry).

(** The methods below test their receiver for nil, so the receiver is
    the pointer itself: [None] is the nil [*Entry]. *)
Definition ShallowClone (entry : option Entry) : outcome (option Entry) :=
  match entry with
  | None => Return None
  | Some e =>
      Return (Some {| FullPath := FullPath e; attr := attr e;
                      Chunks := Chunks e; Extended := Extended e;
                      HardLinkId := HardLinkId e;
                      HardLinkCounter := HardLinkCounter e;
                      Content := Content e; Remote := Remote e;
                      Quota := Quota e |})
  end.

(** The result is the message behind the pointer [message] after the
    call. *)
Definition ToExistingProtoEntry (entry : option Entry)
    (message : option filer_pb.Entry) : outcome (option filer_pb.Entry) :=
  match entry with
  | None => Return message
  | Some e =>
      m ← deref message;
      Return (Some {| filer_pb.Name := filer_pb.Name m;
                      filer_pb.IsDirectory := IsDirectory (attr e);
                      filer_pb.Attributes := EntryAttributeToPb e;
                      filer_pb.Chunks := Chunks e;
                      filer_pb.Extended := Extended e;
                      filer_pb.HardLinkId := HardLinkId e;
                      filer_pb.HardLinkCounter := HardLinkCounter e;
                      filer_pb.Content := Content e;
                      filer_pb.RemoteEntry := Remote e;
                      filer_pb.Quota := Quota e |})
  end.

Definition ToProtoEntry (entry : option Entry) : outcome (option filer_pb.Entry) :=
  match entry with
  | None => Return None
  | Some e =>
      let message :=
        {| filer_pb.Name := util.Name (FullPath e);
           filer_pb.IsDirectory := false; filer_pb.Chunks := [];
           filer_pb.Attributes := None; filer_pb.Extended := None;
           filer_pb.HardLinkId := ""; filer_pb.HardLinkCounter := 0;
           filer_pb.Content := ""; filer_pb.RemoteEntry := None;
           filer_pb.Quota := 0 |} in
      ToExistingProtoEntry entry (Some message)
  end.

(** The result is the entry behind [fsEntry] after the call. *)
Definition FromPbEntryToExistingEntry (message : option filer_pb.Entry)
    (fsEntry : option Entry) : outcome Entry :=
  m ← deref message;
  e ← deref fsEntry;
  Return {| FullPath := FullPath e;
            attr := PbToEntryAttribute (filer_pb.Attributes m);
            Chunks := filer_pb.Chunks m;
            Extended := filer_pb.Extended m;
            HardLinkId := filer_pb.HardLinkId m;
            HardLinkCounter := filer_pb.HardLinkCounter m;
            Content := filer_pb.Content m;
            Remote := filer_pb.RemoteEntry m;
            Quota := filer_pb.Quota m |}.

Definition ToProtoFullEntry (entry : option Entry) : outcome (option filer_pb.FullEntry) :=
  match entry with
  | None => Return None
  | Some e =>
      let '(dir, _) := util.DirAndName (FullPath e) in
      pe ← ToProtoEntry entry;
      Return (Some {| filer_pb.Dir := dir; filer_pb.FullEntry_Entry := pe |})
  end.

Definition FromPbEntry (dir : string) (entry : option filer_pb.Entry) : outcome Entry :=
  m ← deref entry;
  let t := set_FullPath Entry_zero (util.NewFullPath dir (filer_pb.Name m)) in
  FromPbEntryToExistingEntry entry (Some t).

End entry.
End filer.

(** ** Package [mount]: [weedfs_symlink.go] *)
Module mount.

(** Modelled from the spec: the concurrency limiter behind
    [wfs.concurrentOpLimit] is not among the sources.  It is the counting
    admission gate of the design: [capacity] units in all, [available] of
    them free. *)
Record Limiter := { capacity : Z; available : Z }.

(** Modelled from the spec: the limiter's acquisition, called [WaitN] in
    the code.  It reserves [weight] units when they are free and the
    cancel signal has not fired; a wait that ends by cancellation fails
    and reserves nothing.  ([cancel] tells whether the signal fires
    before the units are granted: in a run of one operation nobody else
    releases, so a wait on an exhausted gate can only end that way.) *)
Definition WaitN (l : Limiter) (cancel : bool) (weight : Z) : Limiter * error :=
  if negb cancel && (weight <=? available l)
  then ({| capacity := capacity l; available := available l - weight |}, None)
  else (l, Some "cancelled").

(** Modelled from the spec: the limiter's release, which returns
    [weight] units. *)
Definition Release (l : Limiter) (weight : Z) : Limiter :=
  {| capacity := capacity l; available := available l + weight |}.

(** The parts of the mount that [weedfs_symlink.go] drives and that are
    defined in other files: the inode table, the metadata cache, the
    filer client, the reply buffer and the helpers of [WFS]. *)
Class Collaborators := {
  InodeToPath : Type;
  MetaCache : Type;
  FilerClient : Type;
  EntryOut : Type;
  checkName : string -> fuse.Status;
  (** [inodeToPath.GetPath(inode) (util.FullPath, fuse.Status)] *)
  GetPath : InodeToPath -> Z -> util.FullPath * fuse.Status;
  (** [inodeToPath.Lookup(path, unixTime, isDirectory, isHardlink,
      possibleInode, isLookup) uint64] *)
  Lookup : InodeToPath -> util.FullPath -> Z -> bool -> bool -> Z -> bool
           -> InodeToPath * Z;
  (** [metaCache.InsertEntry(ctx, entry) error] *)
  InsertEntry : MetaCache -> filer.Entry -> MetaCache * error;
  (** [filer_pb.CreateEntry(client, request) error] *)
  CreateEntry : FilerClient -> filer_pb.CreateEntryRequest -> FilerClient * error;
  mapPbIdFromLocalToFiler : filer_pb.Entry -> filer_pb.Entry;
  mapPbIdFromFilerToLocal : filer_pb.Entry -> filer_pb.Entry;
  (** [wfs.maybeLoadEntry(fullpath)], an entry pointer and a status *)
  maybeLoadEntry : MetaCache -> FilerClient -> util.FullPath
                   -> MetaCache * (option filer_pb.Entry * fuse.Status);
  outputPbEntry : EntryOut -> Z -> filer_pb.Entry -> EntryOut }.

Section wfs.
Context `{util.Fns} `{filer.Helpers} `{Collaborators}.

(** The state of one mount session.  [filer] is the remote authority as
    the client sees it and [filer_calls] the create requests sent to it
    so far, oldest first. *)
Record WFS := {
  IsOverQuota : bool;
  signature : Z;
  inodeToPath : InodeToPath;
  metaCache : MetaCache;
  concurrentOpLimit : Limiter;
  filer : FilerClient;
  filer_calls : list filer_pb.CreateEntryRequest }.

Definition set_concurrentOpLimit (wfs : WFS) (l : Limiter) : WFS :=
  {| IsOverQuota := IsOverQuota wfs; signature := signature wfs;
     inodeToPath := inodeToPath wfs; metaCache := metaCache wfs;
     concurrentOpLimit := l; filer := filer wfs;
     filer_calls := filer_calls wfs |}.

Definition set_inodeToPath (wfs : WFS) (t : InodeToPath) : WFS :=
  {| IsOverQuota := IsOverQuota wfs; signature := signature wfs;
     inodeToPath := t; metaCache := metaCache wfs;
     concurrentOpLimit := concurrentOpLimit wfs; filer := filer wfs;
     filer_calls := filer_calls wfs |}.

Definition set_metaCache (wfs : WFS) (c : MetaCache) : WFS :=
  {| IsOverQuota := IsOverQuota wfs; signature := signature wfs;
     inodeToPath := inodeToPath wfs; metaCache := c;
     concurrentOpLimit := concurrentOpLimit wfs; filer := filer wfs;
     filer_calls := filer_calls wfs |}.

(** One create request goes out: the remote state moves on and the
    request is logged. *)
Definition set_filer (wfs : WFS) (f : FilerClient)
    (request : filer_pb.CreateEntryRequest) : WFS :=
  {| IsOverQuota := IsOverQuota wfs; signature := signature wfs;
     inodeToPath := inodeToPath wfs; metaCache := metaCache wfs;
     concurrentOpLimit := concurrentOpLimit wfs; filer := f;
     filer_calls := filer_calls wfs ++ [request] |}.

(** The entry that [Symlink] asks the filer to create.  [mtime] and
    [crtime] are the two readings of [time.Now().Unix()]. *)
Definition symlink_entry (header : fuse.InHeader) (target name : string)
    (mtime crtime : Z) : filer_pb.Entry :=
  {| filer_pb.Name := name;
     filer_pb.IsDirectory := false;
     filer_pb.Attributes := Some
       {| filer_pb.FileSize := 0;
          filer_pb.Mtime := mtime;
          filer_pb.Crtime := crtime;
          filer_pb.FileMode := uint32 (Z.lor 511 os.ModeSymlink);
          filer_pb.Uid := fuse.Uid header;
          filer_pb.Gid := fuse.Gid header;
          filer_pb.Mime := ""; filer_pb.TtlSec := 0;
          filer_pb.UserName := ""; filer_pb.GroupName := [];
          filer_pb.SymlinkTarget := target;
          filer_pb.Md5 := ""; filer_pb.Rdev := 0; filer_pb.Inode := 0 |};
     filer_pb.Chunks := []; filer_pb.Extended := None;
     filer_pb.HardLinkId := ""; filer_pb.HardLinkCounter := 0;
     filer_pb.Content := ""; filer_pb.RemoteEntry := None;
     filer_pb.Quota := 0 |}.

(** [Symlink] returns the session state after the call, the reply
    buffer behind [out] and the status.  [WithFilerClient] hands the
    closure a client and returns the closure's error; the deferred
    [mapPbIdFromFilerToLocal] runs when the closure returns. *)
Definition Symlink (wfs : WFS) (cancel : bool) (header : fuse.InHeader)
    (target name : string) (out : EntryOut) (mtime crtime : Z)
    : outcome (WFS * EntryOut * fuse.Status) :=
  let wfs := set_concurrentOpLimit wfs (WaitN (concurrentOpLimit wfs) cancel 1).1 in
  if IsOverQuota wfs then Return (wfs, out, fuse.ENOSPC)
  else
    let s := checkName name in
    if negb (s =? fuse.OK) then Return (wfs, out, s)
    else
      let '(dirPath, code) := GetPath (inodeToPath wfs) (fuse.NodeId header) in
      if negb (code =? fuse.OK) then Return (wfs, out, code)
      else
        let entryFullPath := util.Child dirPath name in
        let request entry :=
          {| filer_pb.Directory := dirPath;
             filer_pb.Entry_ := Some entry;
             filer_pb.Signatures := [signature wfs] |} in
        let entry := mapPbIdFromLocalToFiler
                       (symlink_entry header target name mtime crtime) in
        let '(client, err) := CreateEntry (filer wfs) (request entry) in
        let wfs := set_filer wfs client (request entry) in
        match err with
        | Some _ => Return (wfs, out, fuse.EIO)
        | None =>
            t ← filer.FromPbEntry dirPath (Some entry);
            let wfs := set_metaCache wfs (InsertEntry (metaCache wfs) t).1 in
            let entry := mapPbIdFromFilerToLocal entry in
            attributes ← deref (filer_pb.Attributes entry);
            let '(table, inode) :=
              Lookup (inodeToPath wfs) entryFullPath
                     (filer_pb.Crtime attributes) false false 0 true in
            let wfs := set_inodeToPath wfs table in
            Return (wfs, outputPbEntry out inode entry, fuse.OK)
        end.

(** [Readlink] returns the session state after the call and the pair
    [(out, code)]; [None] is the nil byte slice. *)
Definition Readlink (wfs : WFS) (cancel : bool) (header : fuse.InHeader)
    : outcome (WFS * (option bytes * fuse.Status)) :=
  let wfs := set_concurrentOpLimit wfs (WaitN (concurrentOpLimit wfs) cancel 1).1 in
  let '(entryFullPath, code) := GetPath (inodeToPath wfs) (fuse.NodeId header) in
  if negb (code =? fuse.OK) then Return (wfs, (None, code))
  else
    let '(cache, (entry, status)) :=
      maybeLoadEntry (metaCache wfs) (filer wfs) entryFullPath in
    let wfs := set_metaCache wfs cache in
    if negb (status =? fuse.OK) then Return (wfs, (None, status))
    else
      entry ← deref entry;
      attributes ← deref (filer_pb.Attributes entry);
      if Z.land (filer_pb.FileMode attributes) os.ModeSymlink =? 0
      then Return (wfs, (None, fuse.EINVAL))
      else Return (wfs, (Some (filer_pb.SymlinkTarget attributes), fuse.OK)).

End wfs.
End mount.

(** ** The collaborators as the specification describes them

    One implementation of each interface above, written from the design
    document.  The theorems that quantify over the interfaces do not
    depend on it; it provides the concrete sessions on which the
    operations are run, and the end-to-end scenario is stated over it. *)
Module model.

(** *** Paths and the byte-size codec ([weed/util]) *)

(** Splits a path at its last separator; [None] when there is none. *)
Fixpoint split_last (s : string) : option (string * string) :=
  match s with
  | EmptyString => None
  | String c s' =>
      match split_last s' with
      | Some (d, n) => Some (String c d, n)
      | None => if Ascii.eqb c "/" then Some ("", s') else None
      end
  end.

Fixpoint ends_with_slash (s : string) : bool :=
  match s with
  | EmptyString => false
  | String c EmptyString => Ascii.eqb c "/"
  | String _ s' => ends_with_slash s'
  end.

(** Modelled from the spec: the path helpers of [util.FullPath] are not
    among the sources.  Paths are hierarchical; a child path is its
    directory, a separator and its name. *)
Definition join (dir name : string) : util.FullPath :=
  if ends_with_slash dir then dir +:+ name else dir +:+ "/" +:+ name.

(** Modelled from the spec: [FullPath.DirAndName] is not among the
    sources.  A path splits at its last separator into its directory and
    its name; the directory of a top-level name is the root. *)
Definition DirAndName (p : util.FullPath) : string * string :=
  match split_last p with
  | Some (d, n) => (if String.eqb d "" then "/" else d, n)
  | None => ("/", p)
  end.

(** Drops the last [n] bytes of [s]. *)
Definition drop_last (n : nat) (s : string) : string :=
  String.substring 0 (String.length s - n) s.

Definition last_bytes (n : nat) (s : string) : string :=
  String.substring (String.length s - n) n s.

(** Modelled from the spec: [util.BytesToHumanReadable] and
    [util.ParseBytes] are not among the sources.  A size is encoded as
    human-readable byte-size text, here the byte count followed by the
    unit [B], and decoding gives back the encoded size exactly. *)
Definition BytesToHumanReadable (b : Z) : string :=
  strconv.Sprintf_d b +:+ " B".

(** Modelled from the spec: [util.ParseBytes] is not among the sources.
    It decodes the byte-size text written above and fails on any other
    text. *)
Definition ParseBytes (s : string) : Z * error :=
  if String.eqb (last_bytes 2 s) " B"
  then strconv.ParseUint10 (list_ascii_of_string (drop_last 2 s))
  else (0, Some "unrecognized size suffix").

(** Modelled from the spec: the helpers of [weed/util] as described
    above; [NewFullPath] and [Child] both join a directory and a name. *)
#[export] Instance util_fns : util.Fns :=
  {| util.ParseBytes := ParseBytes;
     util.BytesToHumanReadable := BytesToHumanReadable;
     util.NewFullPath := join;
     util.Name := fun p => (DirAndName p).2;
     util.DirAndName := DirAndName;
     util.Child := join |}.

(** *** The chunk total and the attribute codec ([weed/filer]) *)

(** Modelled from the spec: [TotalSize] is not among the sources; the
    design gives the sum of the chunk sizes. *)
Definition TotalSize (chunks : list filer_pb.FileChunk) : Z :=
  foldr (fun c acc => uint64 (filer_pb.Size c + acc)) 0 chunks.

(** Modelled from the spec: [EntryAttributeToPb] and [PbToEntryAttribute]
    are not among the sources; every attribute has an explicit mapping to
    and from the wire form. *)
Definition EntryAttributeToPb (entry : filer.Entry) : option filer_pb.FuseAttributes :=
  let a := filer.attr entry in
  Some {| filer_pb.FileSize := filer.FileSize a;
          filer_pb.Mtime := filer.Mtime a;
          filer_pb.FileMode := uint32 (filer.Mode a);
          filer_pb.Uid := filer.Uid a;
          filer_pb.Gid := filer.Gid a;
          filer_pb.Crtime := filer.Crtime a;
          filer_pb.Mime := filer.Mime a;
          filer_pb.TtlSec := filer.TtlSec a;
          filer_pb.UserName := filer.UserName a;
          filer_pb.GroupName := filer.GroupNames a;
          filer_pb.SymlinkTarget := filer.SymlinkTarget a;
          filer_pb.Md5 := filer.Md5 a;
          filer_pb.Rdev := filer.Rdev a;
          filer_pb.Inode := filer.Inode a |}.

(** Modelled from the spec: [PbToEntryAttribute] is not among the
    sources.  It is the reverse mapping, attribute by attribute; a nil
    message gives the zero attributes. *)
Definition PbToEntryAttribute (attr : option filer_pb.FuseAttributes) : filer.Attr :=
  match attr with
  | None => filer.Attr_zero
  | Some a =>
      {| filer.Mtime := filer_pb.Mtime a;
         filer.Crtime := filer_pb.Crtime a;
         filer.Mode := filer_pb.FileMode a;
         filer.Uid := filer_pb.Uid a;
         filer.Gid := filer_pb.Gid a;
         filer.Mime := filer_pb.Mime a;
         filer.TtlSec := filer_pb.TtlSec a;
         filer.UserName := filer_pb.UserName a;
         filer.GroupNames := filer_pb.GroupName a;
         filer.SymlinkTarget := filer_pb.SymlinkTarget a;
         filer.Md5 := filer_pb.Md5 a;
         filer.FileSize := filer_pb.FileSize a;
         filer.Rdev := filer_pb.Rdev a;
         filer.Inode := filer_pb.Inode a |}
  end.

#[export] Instance filer_helpers : filer.Helpers :=
  {| filer.TotalSize := TotalSize;
     filer.EntryAttributeToPb := EntryAttributeToPb;
     filer.PbToEntryAttribute := PbToEntryAttribute |}.

(** *** The inode table *)

(** Modelled from the spec: the record of the inode table, a path with
    its reference count and creation stamp, keyed by inode number. *)
Record InodeEntry := {
  path : util.FullPath;
  nlookup : Z;
  stamp : Z;
  isDirectory : bool }.

(** Modelled from the spec: a lookup of a mapped path adds one
    reference. *)
Definition retain (e : InodeEntry) : InodeEntry :=
  {| path := path e; nlookup := nlookup e + 1; stamp := stamp e;
     isDirectory := isDirectory e |}.

(** Modelled from the spec: the reverse direction of the table, the
    inode that currently maps to the path [p], if any. *)
Definition inode_of (t : gmap Z InodeEntry) (p : util.FullPath) : option Z :=
  fst <$> head (filter (fun kv => bool_decide (path kv.2 = p)) (map_to_list t)).

(** Modelled from the spec: [InodeToPath.GetPath] is not among the
    sources.  It gives the path of a live inode and not-found for one
    that was reclaimed or never allocated. *)
Definition GetPath (t : gmap Z InodeEntry) (inode : Z) : util.FullPath * fuse.Status :=
  match t !! inode with
  | Some e => (path e, fuse.OK)
  | None => ("", fuse.ENOENT)
  end.

(** Modelled from the spec: [InodeToPath.Lookup] is not among the
    sources.  A mapped path keeps its number and gains a reference; an
    unmapped one adopts a nonzero hint that no path holds, and otherwise
    takes a number unused by every live inode. *)
Definition Lookup (t : gmap Z InodeEntry) (p : util.FullPath) (unixTime : Z)
    (isDir isHardlink : bool) (possibleInode : Z) (isLookup : bool)
    : gmap Z InodeEntry * Z :=
  match inode_of t p with
  | Some inode => (alter retain inode t, inode)
  | None =>
      if negb isLookup then (t, 0)
      else
        let inode :=
          if negb (possibleInode =? 0) && bool_decide (t !! possibleInode = None)
          then possibleInode
          else fresh (dom t) in
        (<[inode := {| path := p; nlookup := 1; stamp := unixTime;
                       isDirectory := isDir |}]> t, inode)
  end.

(** *** The remote authority and the metadata cache *)

(** Modelled from the spec: the remote filer, reachable or not, holding
    the wire form of each entry under its path together with its
    directory. *)
Record Filer := {
  online : bool;
  tree : gmap string (string * filer_pb.Entry) }.

(** Modelled from the spec: [CreateEntry] against the remote authority
    fails with a transport error when the authority is unreachable. *)
Definition CreateEntry (f : Filer) (request : filer_pb.CreateEntryRequest)
    : Filer * error :=
  match filer_pb.Entry_ request with
  | None => (f, Some "nil entry")
  | Some e =>
      if online f
      then ({| online := true;
               tree := <[join (filer_pb.Directory request) (filer_pb.Name e) :=
                           (filer_pb.Directory request, e)]> (tree f) |}, None)
      else (f, Some "filer unreachable")
  end.

(** Modelled from the spec: [MetaCache.InsertEntry] installs or
    overwrites the slot at the entry's path. *)
Definition InsertEntry (c : gmap string filer.Entry) (entry : filer.Entry)
    : gmap string filer.Entry * error :=
  (<[filer.FullPath entry := entry]> c, None).

(** Modelled from the spec: [maybeLoadEntry] is not among the sources.
    The target is read through the cache; a local miss falls through to
    the remote authority and populates the cache; an unreachable
    authority is an I/O error and an absent path is not-found. *)
Definition maybeLoadEntry (c : gmap string filer.Entry) (f : Filer)
    (p : util.FullPath)
    : gmap string filer.Entry * (option filer_pb.Entry * fuse.Status) :=
  match c !! p with
  | Some e =>
      match filer.ToProtoEntry (Some e) with
      | Return (Some pe) => (c, (Some pe, fuse.OK))
      | _ => (c, (None, fuse.EIO))
      end
  | None =>
      if online f then
        match tree f !! p with
        | Some (dir, pe) =>
            match filer.FromPbEntry dir (Some pe) with
            | Return e => (<[p := e]> c, (Some pe, fuse.OK))
            | Panic => (c, (None, fuse.EIO))
            end
        | None => (c, (None, fuse.ENOENT))
        end
      else (c, (None, fuse.EIO))
  end.

(** Modelled from the spec: [checkName] is not among the sources.  An
    empty name and a name with a reserved byte, the separator or NUL,
    are invalid.  [has_reserved] finds a reserved byte. *)
Fixpoint has_reserved (name : string) : bool :=
  match name with
  | EmptyString => false
  | String c s => Ascii.eqb c "/" || Ascii.eqb c "000" || has_reserved s
  end.

(** Modelled from the spec: invalid names map to the invalid-argument
    status. *)
Definition checkName (name : string) : fuse.Status :=
  if String.eqb name "" || has_reserved name then fuse.EINVAL else fuse.OK.

(** Modelled from the spec: the success payload of an operation, the
    new inode and the attributes. *)
Record EntryOut := {
  out_NodeId : Z;
  out_Attr : option filer_pb.FuseAttributes }.

(** Modelled from the spec: [outputPbEntry] is not among the sources.
    It fills the reply with the inode and the entry's attributes. *)
Definition outputPbEntry (out : EntryOut) (inode : Z) (entry : filer_pb.Entry)
    : EntryOut :=
  {| out_NodeId := inode; out_Attr := filer_pb.Attributes entry |}.

(** Modelled from the spec: the design describes no translation of
    owner identifiers between the mount and the authority, so
    [mapPbIdFromLocalToFiler] and [mapPbIdFromFilerToLocal] leave the
    entry as it is. *)
#[export] Instance collaborators : mount.Collaborators :=
  {| mount.InodeToPath := gmap Z InodeEntry;
     mount.MetaCache := gmap string filer.Entry;
     mount.FilerClient := Filer;
     mount.EntryOut := EntryOut;
     mount.checkName := checkName;
     mount.GetPath := GetPath;
     mount.Lookup := Lookup;
     mount.InsertEntry := InsertEntry;
     mount.CreateEntry := CreateEntry;
     mount.mapPbIdFromLocalToFiler := fun e => e;
     mount.mapPbIdFromFilerToLocal := fun e => e;
     mount.maybeLoadEntry := maybeLoadEntry;
     mount.outputPbEntry := outputPbEntry |}.

(** *** Concrete sessions *)

Definition dir_table : gmap Z InodeEntry :=
  {[ 1 := {| path := "/"; nlookup := 1; stamp := 0; isDirectory := true |};
     2 := {| path := "/dir"; nlookup := 1; stamp := 0; isDirectory := true |} ]}.

Definition session (over_quota : bool) (cache : gmap string filer.Entry)
    (table : gmap Z InodeEntry) : mount.WFS :=
  {| mount.IsOverQuota := over_quota;
     mount.signature := 7;
     mount.inodeToPath := table;
     mount.metaCache := cache;
     mount.concurrentOpLimit := {| mount.capacity := 4; mount.available := 4 |};
     mount.filer := {| online := true; tree := ∅ |};
     mount.filer_calls := [] |}.

Definition caller (node : Z) : fuse.InHeader :=
  {| fuse.NodeId := node; fuse.Uid := 1000; fuse.Gid := 1000 |}.

Definition no_reply : EntryOut := {| out_NodeId := 0; out_Attr := None |}.

(** The session after the scenario's [Symlink]: the link [link] to
    [/dir/target] is created under [/dir] by uid 1000. *)
Definition linked : mount.WFS * EntryOut :=
  match mount.Symlink (session false ∅ dir_table) false (caller 2)
                      "/dir/target" "link" no_reply 100 100 with
  | Return (wfs, out, _) => (wfs, out)
  | Panic => (session false ∅ dir_table, no_reply)
  end.

(** A regular file [/dir/file], mode 0644, known to the inode table as
    inode 3 and present in the metadata cache. *)
Definition file_entry : filer.Entry :=
  {| filer.FullPath := "/dir/file";
     filer.attr :=
       {| filer.Mtime := 100; filer.Crtime := 100; filer.Mode := 420;
          filer.Uid := 1000; filer.Gid := 1000; filer.Mime := "";
          filer.TtlSec := 0; filer.UserName := ""; filer.GroupNames := [];
          filer.SymlinkTarget := ""; filer.Md5 := ""; filer.FileSize := 5;
          filer.Rdev := 0; filer.Inode := 0 |};
     filer.Extended := None;
     filer.Chunks := [ {| filer_pb.FileId := "3,01637037d6";
                          filer_pb.Offset := 0; filer_pb.Size := 4 |} ];
     filer.HardLinkId := ""; filer.HardLinkCounter := 0;
     filer.Content := "inline!"; filer.Remote := None; filer.Quota := 0 |}.

Definition file_table : gmap Z InodeEntry :=
  <[3 := {| path := "/dir/file"; nlookup := 1; stamp := 100;
            isDirectory := false |}]> dir_table.

End model.

(** ** Concrete entries *)

(** A fresh entry at [path] whose extended attributes hold [val] under
    [key]. *)
Definition entry_with (path key : string) (val : bytes) : filer.Entry :=
  filer.store_xattr (filer.set_FullPath filer.Entry_zero path) key val.

(** ** Decimal text *)

(** The bytes ['0'] to ['9'] and the number that a run of them denotes
    after the prefix value [n]. *)
Definition is_digit (c : ascii) : Prop := 48 <= byte_code c <= 57.

Definition dec_value (cs : list ascii) (n : Z) : Z :=
  fold_left (fun n c => n * 10 + (byte_code c - 48)) cs n.

(** ** Frames *)

(** [after] is [before] with the one extended attribute [key] written:
    every other field is the same, the map is allocated, and every other
    key reads as before. *)
Definition only_xattr_changed (key : string) (before after : filer.Entry) : Prop :=
  filer.FullPath after = filer.FullPath before /\
  filer.attr after = filer.attr before /\
  filer.Chunks after = filer.Chunks before /\
  filer.HardLinkId after = filer.HardLinkId before /\
  filer.HardLinkCounter after = filer.HardLinkCounter before /\
  filer.Content after = filer.Content before /\
  filer.Remote after = filer.Remote before /\
  filer.Quota after = filer.Quota before /\
  filer.Extended after <> None /\
  forall k : string, k <> key ->
    map_index (filer.Extended after) k = map_index (filer.Extended before) k.

(** ** More concrete sessions *)
Module sessions.
Import model.

(** The session of [model.session] with the filer out of reach. *)
Definition offline_session : mount.WFS :=
  {| mount.IsOverQuota := false;
     mount.signature := 7;
     mount.inodeToPath := dir_table;
     mount.metaCache := ∅;
     mount.concurrentOpLimit := {| mount.capacity := 4; mount.available := 4 |};
     mount.filer := {| online := false; tree := ∅ |};
     mount.filer_calls := [] |}.

(** A wire message that claims to be a directory while its mode says
    regular file. *)
Definition mislabelled : filer_pb.Entry :=
  {| filer_pb.Name := "file"; filer_pb.IsDirectory := true;
     filer_pb.Chunks := [];
     filer_pb.Attributes := EntryAttributeToPb file_entry;
     filer_pb.Extended := None; filer_pb.HardLinkId := "";
     filer_pb.HardLinkCounter := 0; filer_pb.Content := "";
     filer_pb.RemoteEntry := None; filer_pb.Quota := 0 |}.

End sessions.

(** * Properties *)

(** ** Decimal text: [strconv.Atoi] reads what [%d] writes *)

Example Atoi_42 : strconv.Atoi "42" = (42, None).
Proof. reflexivity. Qed.
Example Atoi_neg : strconv.Atoi "-7" = (-7, None).
Proof. reflexivity. Qed.
Example Atoi_syntax : strconv.Atoi "12x" = (0, strconv.ErrSyntax).
Proof. reflexivity. Qed.
Example Atoi_max : strconv.Atoi "9223372036854775807" = (9223372036854775807, None).
Proof. vm_compute. reflexivity. Qed.
Example Atoi_range : strconv.Atoi "9223372036854775808" = (9223372036854775807, strconv.ErrRange).
Proof. vm_compute. reflexivity. Qed.
Example Atoi_min : strconv.Atoi "-9223372036854775808" = (-9223372036854775808, None).
Proof. vm_compute. reflexivity. Qed.
Example Sprintf_d_1024 : strconv.Sprintf_d 1024 = "1024".
Proof. vm_compute. reflexivity. Qed.
Example Sprintf_d_0 : strconv.Sprintf_d 0 = "0".
Proof. vm_compute. reflexivity. Qed.


Lemma uint64_small (x : Z) : 0 <= x < 2 ^ 64 -> uint64 x = x.
Proof. intros Hx. unfold uint64. apply Z.mod_small. exact Hx. Qed.

Lemma byte_code_of (n : Z) : 0 <= n < 256 -> byte_code (byte_of n) = n.
Proof.
  intros Hn. unfold byte_code, byte_of.
  rewrite N_ascii_embedding by lia. lia.
Qed.

Lemma dec_value_snoc cs c n :
  dec_value (cs ++ [c]) n = dec_value cs n * 10 + (byte_code c - 48).
Proof. unfold dec_value. rewrite fold_left_app. reflexivity. Qed.

Lemma dec_value_ge cs : forall n, Forall is_digit cs -> 0 <= n -> n <= dec_value cs n.
Proof.
  induction cs as [|c cs IH]; intros n Hd Hn; simpl; [lia|].
  inversion Hd as [|? ? Hc Hcs]; subst.
  unfold is_digit in Hc.
  etransitivity; [|apply IH; [assumption|lia]]. lia.
Qed.

Lemma fmt_digits_acc fuel : forall u acc,
  strconv.fmt_digits fuel u acc = strconv.fmt_digits fuel u [] ++ acc.
Proof.
  induction fuel as [|fuel IH]; intros u acc; simpl; [reflexivity|].
  destruct (u <? 10); [reflexivity|].
  rewrite (IH _ (_ :: acc)), (IH _ [_]), <- app_assoc. reflexivity.
Qed.

Lemma fmt_digits_value fuel : forall u,
  0 <= u < 10 ^ Z.of_nat (S fuel) ->
  let ds := strconv.fmt_digits (S fuel) u [] in
  ds <> [] /\ Forall is_digit ds /\ dec_value ds 0 = u.
Proof.
  induction fuel as [|fuel IH]; intros u Hu.
  - simpl. change (10 ^ Z.of_nat 1) with 10 in Hu.
    destruct (Z.ltb_spec u 10); [|lia].
    split; [discriminate|]. split.
    + constructor; [|constructor]. unfold is_digit. rewrite byte_code_of; lia.
    + unfold dec_value. simpl. rewrite byte_code_of; lia.
  - remember (S fuel) as f eqn:Hf.
    cbn [strconv.fmt_digits]. destruct (Z.ltb_spec u 10) as [Hlt|Hge].
    + split; [discriminate|]. split.
      * constructor; [|constructor]. unfold is_digit. rewrite byte_code_of; lia.
      * unfold dec_value. simpl. rewrite byte_code_of; lia.
    + rewrite fmt_digits_acc.
      assert (Hq : 0 <= u / 10 < 10 ^ Z.of_nat f).
      { split; [apply Z.div_pos; lia|].
        apply Z.div_lt_upper_bound; [lia|].
        replace (Z.of_nat (S f)) with (Z.succ (Z.of_nat f)) in Hu by lia.
        rewrite Z.pow_succ_r in Hu by lia. lia. }
      subst f. destruct (IH _ Hq) as (Hne & Hd & Hv).
      pose proof (Z.mod_pos_bound u 10 ltac:(lia)) as Hm.
      split; [intros Habs; apply app_eq_nil in Habs; destruct Habs; discriminate|].
      split.
      * apply Forall_app. split; [exact Hd|].
        constructor; [|constructor]. unfold is_digit. rewrite byte_code_of; lia.
      * rewrite dec_value_snoc, Hv, byte_code_of by lia.
        pose proof (Z.div_mod u 10 ltac:(lia)). lia.
Qed.

Lemma atoi_fast_loop_digits cs : forall n,
  Forall is_digit cs -> strconv.atoi_fast_loop cs n = (dec_value cs n, None).
Proof.
  induction cs as [|c cs IH]; intros n Hd; simpl; [reflexivity|].
  inversion Hd as [|? ? Hc Hcs]; subst. unfold is_digit in Hc.
  rewrite Z.mod_small by lia.
  destruct (Z.gtb_spec (byte_code c - 48) 9); [lia|].
  apply IH. exact Hcs.
Qed.

Lemma parseUint_loop_digits cs : forall n,
  Forall is_digit cs -> 0 <= n -> dec_value cs n < 2 ^ 64 ->
  strconv.parseUint_loop cs n = (dec_value cs n, None).
Proof.
  induction cs as [|c cs IH]; intros n Hd Hn Hv; simpl; [reflexivity|].
  inversion Hd as [|? ? Hc Hcs]; subst. unfold is_digit in Hc.
  simpl in Hv.
  pose proof (dec_value_ge cs (n * 10 + (byte_code c - 48)) Hcs ltac:(lia)) as Hge.
  destruct (Z.leb_spec 48 (byte_code c)); [|lia].
  destruct (Z.leb_spec (byte_code c) 57); [|lia].
  cbn [andb].
  unfold strconv.maxUint64.
  change (2 ^ 64) with 18446744073709551616 in *.
  change ((18446744073709551616 - 1) / 10 + 1) with 1844674407370955162.
  destruct (Z.geb_spec n 1844674407370955162); [lia|].
  rewrite uint64_small by (change (2 ^ 64) with 18446744073709551616; lia).
  destruct (Z.ltb_spec (n * 10 + (byte_code c - 48)) (n * 10)); [lia|].
  destruct (Z.gtb_spec (n * 10 + (byte_code c - 48)) (18446744073709551616 - 1)); [lia|].
  cbn [orb]. apply IH; [exact Hcs|lia|exact Hv].
Qed.

Lemma digit_not_sign c : is_digit c -> Ascii.eqb c "-" = false /\ Ascii.eqb c "+" = false.
Proof.
  unfold is_digit. intros Hc.
  split; apply Ascii.eqb_neq; intros ->; vm_compute in Hc; destruct Hc as [H1 H2];
    (apply H1; reflexivity) || (apply H2; reflexivity).
Qed.

Lemma Atoi_digits (ds : list ascii) :
  ds <> [] -> Forall is_digit ds -> dec_value ds 0 < 2 ^ 63 ->
  strconv.Atoi (string_of_list_ascii ds) = (dec_value ds 0, None).
Proof.
  intros Hne Hd Hv. unfold strconv.Atoi.
  rewrite list_ascii_of_string_of_list_ascii.
  destruct ds as [|c cs]; [congruence|].
  pose proof Hd as Hd'. inversion Hd' as [|? ? Hc Hcs]; subst.
  destruct (digit_not_sign c Hc) as [Hminus Hplus].
  destruct (_ && _).
  - rewrite Hminus, Hplus. cbn [orb].
    rewrite atoi_fast_loop_digits by exact Hd. reflexivity.
  - unfold strconv.ParseInt10. rewrite Hminus, Hplus. cbn [orb].
    unfold strconv.ParseUint10.
    rewrite parseUint_loop_digits; [|exact Hd|lia|lia].
    rewrite bool_decide_eq_false_2 by (intros Hn; apply Hn; reflexivity).
    cbn [andb negb].
    destruct (Z.geb_spec (dec_value (c :: cs) 0) (2 ^ 63)); [lia|]. reflexivity.
Qed.

Lemma Sprintf_d_digits (b : Z) :
  0 <= b < 2 ^ 63 ->
  exists ds, strconv.Sprintf_d b = string_of_list_ascii ds /\
             ds <> [] /\ Forall is_digit ds /\ dec_value ds 0 = b.
Proof.
  intros Hb. unfold strconv.Sprintf_d.
  destruct (Z.ltb_spec b 0); [lia|].
  eexists. split; [reflexivity|].
  apply (fmt_digits_value 19 b). change (10 ^ Z.of_nat 20) with 100000000000000000000.
  change (2 ^ 63) with 9223372036854775808 in Hb. lia.
Qed.

Lemma Atoi_Sprintf_d (b : Z) :
  0 <= b < 2 ^ 63 -> strconv.Atoi (strconv.Sprintf_d b) = (b, None).
Proof.
  intros Hb. destruct (Sprintf_d_digits b Hb) as (ds & -> & Hne & Hd & Hv).
  rewrite Atoi_digits by (try assumption; lia). rewrite Hv. reflexivity.
Qed.

Lemma Sprintf_d_nonempty (b : Z) : 0 <= b < 2 ^ 63 -> len (strconv.Sprintf_d b) <> 0.
Proof.
  intros Hb. destruct (Sprintf_d_digits b Hb) as (ds & -> & Hne & _).
  destruct ds; [congruence|]. unfold len. simpl. lia.
Qed.

Lemma Atoi_error_value (s : string) (v : Z) (e : string) :
  strconv.Atoi s = (v, Some e) -> Some e <> strconv.ErrRange -> v = 0.
Proof.
  unfold strconv.Atoi. intros Hs Hne.
  destruct (_ && _).
  - destruct (list_ascii_of_string s) as [|c cs]; [congruence|].
    destruct (Ascii.eqb c "-" || Ascii.eqb c "+").
    + destruct cs as [|d ds]; [congruence|].
      destruct (strconv.atoi_fast_loop (d :: ds) 0) as [n [err|]]; congruence.
    + destruct (strconv.atoi_fast_loop (c :: cs) 0) as [n [err|]]; congruence.
  - unfold strconv.ParseInt10 in Hs.
    destruct (list_ascii_of_string s) as [|c cs]; [congruence|].
    destruct (strconv.ParseUint10 _) as [un err].
    destruct (_ && _); [congruence|].
    destruct (_ && _); [congruence|].
    destruct (_ && _); congruence.
Qed.

(** ** The Entry model *)

Lemma maxUint64_max (x y : Z) : filer.maxUint64 x y = Z.max x y.
Proof. unfold filer.maxUint64. destruct (Z.gtb_spec x y); lia. Qed.

Lemma len_nonneg (b : bytes) : 0 <= len b.
Proof. unfold len. lia. Qed.

Section entry_facts.
Context `{util.Fns} `{filer.Helpers}.

(** C1: [Size] is the maximum of the total size of the chunk list, the
    declared [FileSize] and the length of the inline content.  The
    length of a slice is an [int], hence below [2^63]. *)
Theorem Size_is_max (entry : filer.Entry) :
  len (filer.Content entry) < 2 ^ 63 ->
  filer.Size entry =
    Z.max (Z.max (filer.TotalSize (filer.Chunks entry))
                 (filer.FileSize (filer.attr entry)))
          (len (filer.Content entry)).
Proof.
  intros Hlen. unfold filer.Size.
  rewrite !maxUint64_max, uint64_small; [reflexivity|].
  pose proof (len_nonneg (filer.Content entry)). lia.
Qed.

(** C9: the four conversions test their receiver for nil before they
    touch it.  On a nil entry [ShallowClone], [ToProtoEntry] and
    [ToProtoFullEntry] return nil and [ToExistingProtoEntry] returns
    with its message, nil or not, as it was. *)
Theorem nil_entry_is_safe :
  filer.ShallowClone None = Return None /\
  filer.ToProtoEntry None = Return None /\
  filer.ToProtoFullEntry None = Return None /\
  forall message : option filer_pb.Entry,
    filer.ToExistingProtoEntry None message = Return message.
Proof. repeat split. Qed.

(** C5: an entry sent through [ToProtoEntry] and read back with
    [FromPbEntry] keeps its hard-link id, hard-link counter,
    remote-entry pointer and quota counter, whatever directory it is
    read back under. *)
Theorem wire_roundtrip (entry : filer.Entry) (dir : string) :
  exists (message : filer_pb.Entry) (back : filer.Entry),
    filer.ToProtoEntry (Some entry) = Return (Some message) /\
    filer.FromPbEntry dir (Some message) = Return back /\
    filer.HardLinkId back = filer.HardLinkId entry /\
    filer.HardLinkCounter back = filer.HardLinkCounter entry /\
    filer.Remote back = filer.Remote entry /\
    filer.Quota back = filer.Quota entry.
Proof.
  eexists. eexists.
  split; [reflexivity|].
  split; [reflexivity|].
  repeat split.
Qed.

End entry_facts.


(** ** The quota counters in the extended attributes *)

Lemma map_index_store (entry : filer.Entry) (key : string) (val : bytes) :
  map_index (filer.Extended (filer.store_xattr entry key val)) key = val.
Proof.
  unfold filer.store_xattr, filer.set_Extended, map_index. cbn.
  rewrite lookup_insert_eq. reflexivity.
Qed.

Lemma clamp_max (b : Z) : (if b <? 0 then 0 else b) = Z.max b 0.
Proof. destruct (Z.ltb_spec b 0); lia. Qed.

Section xattr_facts.
Context `{util.Fns}.

(** A size value that [ParseBytes] rejects reads as zero. *)
Lemma GetXAttrSize_decode_failure (entry : filer.Entry) (b : Z) (e : string) :
  util.ParseBytes (map_index (filer.Extended entry) "xattr-size") = (b, Some e) ->
  filer.GetXAttrSize entry = 0.
Proof.
  intros Hp. unfold filer.GetXAttrSize.
  change (filer.XATTR_PREFIX +:+ filer.Size_Key) with "xattr-size".
  rewrite Hp. destruct (_ =? _); reflexivity.
Qed.

Lemma GetXAttrSizeQuota_decode_failure (entry : filer.Entry) (b : Z) (e : string) :
  util.ParseBytes (map_index (filer.Extended entry) "xattr-quota-size") = (b, Some e) ->
  filer.GetXAttrSizeQuota entry = 0.
Proof.
  intros Hp. unfold filer.GetXAttrSizeQuota.
  change (filer.XATTR_PREFIX +:+ filer.Size_Quota_Key) with "xattr-quota-size".
  rewrite Hp. destruct (_ =? _); reflexivity.
Qed.

(** What the setters and getters add to the codec they call.  Every
    setter stores the encoding of [max(b, 0)]; the inode counters, written
    with [%d] and read with [strconv.Atoi], read [max(b, 0)] back; and the
    size counters read it back whenever [ParseBytes] decodes the text
    that [BytesToHumanReadable] writes for [max(b, 0)]. *)
Theorem xattr_set_then_get (entry : filer.Entry) (b : Z) :
  - 2 ^ 63 <= b < 2 ^ 63 ->
  len (util.BytesToHumanReadable (Z.max b 0)) <> 0 ->
  util.ParseBytes (util.BytesToHumanReadable (Z.max b 0)) = (Z.max b 0, None) ->
  (filer.SetXAttrSize entry b = filer.SetXAttrSize entry (Z.max b 0) /\
   filer.SetXAttrSizeQuota entry b = filer.SetXAttrSizeQuota entry (Z.max b 0) /\
   filer.SetXAttrInodeCount entry b = filer.SetXAttrInodeCount entry (Z.max b 0) /\
   filer.SetXAttrInodeCountQuota entry b =
     filer.SetXAttrInodeCountQuota entry (Z.max b 0)) /\
  filer.GetXAttrSize (filer.SetXAttrSize entry b) = Z.max b 0 /\
  filer.GetXAttrSizeQuota (filer.SetXAttrSizeQuota entry b) = Z.max b 0 /\
  filer.GetXAttrInodeCount (filer.SetXAttrInodeCount entry b) = Z.max b 0 /\
  filer.GetXAttrInodeQuota (filer.SetXAttrInodeCountQuota entry b) = Z.max b 0.
Proof.
  intros Hb Hlen Hdec.
  assert (Hc : 0 <= Z.max b 0 < 2 ^ 63) by lia.
  assert (Hu : uint64 (Z.max b 0) = Z.max b 0).
  { apply uint64_small. change (2 ^ 64) with (2 * 2 ^ 63). lia. }
  assert (Hidem : Z.max (Z.max b 0) 0 = Z.max b 0) by lia.
  split.
  { unfold filer.SetXAttrSize, filer.SetXAttrSizeQuota,
      filer.SetXAttrInodeCount, filer.SetXAttrInodeCountQuota.
    rewrite !clamp_max, Hidem. repeat split. }
  unfold filer.GetXAttrSize, filer.SetXAttrSize,
    filer.GetXAttrSizeQuota, filer.SetXAttrSizeQuota,
    filer.GetXAttrInodeCount, filer.SetXAttrInodeCount,
    filer.GetXAttrInodeQuota, filer.SetXAttrInodeCountQuota.
  rewrite !clamp_max, !map_index_store, Hu, Hdec.
  rewrite Atoi_Sprintf_d, Hu by exact Hc.
  pose proof (Sprintf_d_nonempty _ Hc) as Hd.
  destruct (Z.eqb_spec (len (util.BytesToHumanReadable (Z.max b 0))) 0); [lia|].
  destruct (Z.eqb_spec (len (strconv.Sprintf_d (Z.max b 0))) 0); [lia|].
  repeat split.
Qed.

End xattr_facts.

(** An inode counter that [strconv.Atoi] rejects for its syntax reads as
    zero: [Atoi] returns zero beside a syntax error. *)
Lemma GetXAttrInodeCount_syntax_error (entry : filer.Entry) (v : Z) (e : string) :
  strconv.Atoi (map_index (filer.Extended entry) "xattr-inode") = (v, Some e) ->
  Some e <> strconv.ErrRange ->
  filer.GetXAttrInodeCount entry = 0.
Proof.
  intros Ha Hne. unfold filer.GetXAttrInodeCount.
  change (filer.XATTR_PREFIX +:+ filer.Inode_Key) with "xattr-inode".
  rewrite Ha, (Atoi_error_value _ _ _ Ha Hne). destruct (_ =? _); reflexivity.
Qed.

(** C6: the inode-count getters drop the error of [strconv.Atoi] and
    return its value.  Beside a range error that value is the largest
    [int], not zero: a counter holding the decimal text of [2^63] fails
    to decode, and both getters return [2^63 - 1] for it. *)
Theorem GetXAttrInodeCount_range_error :
  strconv.Atoi "9223372036854775808" = (9223372036854775807, strconv.ErrRange) /\
  filer.GetXAttrInodeCount
    (entry_with "/dir" "xattr-inode" "9223372036854775808") = 9223372036854775807 /\
  filer.GetXAttrInodeQuota
    (entry_with "/dir" "xattr-quota-inode" "9223372036854775808") = 9223372036854775807.
Proof. vm_compute. repeat split. Qed.

(** ** [Symlink] and [Readlink] *)

Section mount_facts.
Context `{util.Fns} `{filer.Helpers} `{mount.Collaborators}.

Lemma available_WaitN (l : mount.Limiter) (cancel : bool) :
  mount.available (mount.WaitN l cancel 1).1 =
    if negb cancel && (1 <=? mount.available l)
    then mount.available l - 1
    else mount.available l.
Proof. unfold mount.WaitN. destruct (_ && _); reflexivity. Qed.

(** [Symlink] touches the limiter once, in the [WaitN] of its first
    line. *)
Lemma Symlink_limiter (wfs wfs' : mount.WFS) (cancel : bool)
    (header : fuse.InHeader) (target name : string) (out out' : mount.EntryOut)
    (mtime crtime : Z) (code : fuse.Status) :
  mount.Symlink wfs cancel header target name out mtime crtime
    = Return (wfs', out', code) ->
  mount.concurrentOpLimit wfs' =
    (mount.WaitN (mount.concurrentOpLimit wfs) cancel 1).1.
Proof.
  unfold mount.Symlink. cbn.
  destruct (mount.IsOverQuota wfs); [intros [= <- _ _]; reflexivity|].
  destruct (negb _); [intros [= <- _ _]; reflexivity|].
  destruct (mount.GetPath _ _) as [dirPath code'].
  destruct (negb _); [intros [= <- _ _]; reflexivity|].
  destruct (mount.CreateEntry _ _) as [client [err|]];
    [intros [= <- _ _]; reflexivity|].
  cbn.
  destruct (deref _) as [attributes|]; cbn; [|discriminate].
  destruct (mount.Lookup _ _ _ _ _ _ _) as [table inode].
  intros [= <- _ _]. reflexivity.
Qed.

Lemma Readlink_limiter (wfs wfs' : mount.WFS) (cancel : bool)
    (header : fuse.InHeader) (r : option bytes * fuse.Status) :
  mount.Readlink wfs cancel header = Return (wfs', r) ->
  mount.concurrentOpLimit wfs' =
    (mount.WaitN (mount.concurrentOpLimit wfs) cancel 1).1.
Proof.
  unfold mount.Readlink. cbn.
  destruct (mount.GetPath _ _) as [entryFullPath code].
  destruct (negb _); [intros [= <- _]; reflexivity|].
  destruct (mount.maybeLoadEntry _ _ _) as [cache [entry status]].
  destruct (negb _); [intros [= <- _]; reflexivity|].
  destruct entry as [entry|]; cbn; [|discriminate].
  destruct (filer_pb.Attributes entry) as [attributes|]; cbn; [|discriminate].
  destruct (_ =? _); intros [= <- _]; reflexivity.
Qed.

(** C3, as the code has it: [Symlink] and [Readlink] take weight 1 from
    the limiter in their first line and hand nothing back on any path.
    After either operation returns, the free capacity is one unit below
    what it was when the weight was granted, and what it was
    otherwise. *)
Theorem limiter_weight_is_kept (wfs : mount.WFS) (cancel : bool)
    (header : fuse.InHeader) (target name : string) (out : mount.EntryOut)
    (mtime crtime : Z) :
  let after (l : mount.Limiter) :=
    mount.available l =
      if negb cancel && (1 <=? mount.available (mount.concurrentOpLimit wfs))
      then mount.available (mount.concurrentOpLimit wfs) - 1
      else mount.available (mount.concurrentOpLimit wfs) in
  (forall wfs' out' code,
      mount.Symlink wfs cancel header target name out mtime crtime
        = Return (wfs', out', code) ->
      after (mount.concurrentOpLimit wfs')) /\
  (forall wfs' r,
      mount.Readlink wfs cancel header = Return (wfs', r) ->
      after (mount.concurrentOpLimit wfs')).
Proof.
  split.
  - intros wfs' out' code Hr.
    rewrite (Symlink_limiter _ _ _ _ _ _ _ _ _ _ _ Hr). apply available_WaitN.
  - intros wfs' r Hr.
    rewrite (Readlink_limiter _ _ _ _ _ Hr). apply available_WaitN.
Qed.

(** C8: over quota, [Symlink] answers [ENOSPC] straight after the
    limiter: no create request goes out, the remote authority, the
    metadata cache and the inode table stay as they were, and the reply
    buffer is not written. *)
Theorem Symlink_over_quota (wfs : mount.WFS) (cancel : bool)
    (header : fuse.InHeader) (target name : string) (out : mount.EntryOut)
    (mtime crtime : Z) :
  mount.IsOverQuota wfs = true ->
  exists wfs',
    mount.Symlink wfs cancel header target name out mtime crtime
      = Return (wfs', out, fuse.ENOSPC) /\
    mount.filer_calls wfs' = mount.filer_calls wfs /\
    mount.filer wfs' = mount.filer wfs /\
    mount.metaCache wfs' = mount.metaCache wfs /\
    mount.inodeToPath wfs' = mount.inodeToPath wfs.
Proof.
  intros Hq. unfold mount.Symlink. cbn. rewrite Hq.
  eexists. split; [reflexivity|]. repeat split.
Qed.


(** C10: when the inode resolves to a path, the path loads to an entry,
    and the entry's mode lacks the symlink bit, [Readlink] returns a nil
    payload with [EINVAL]. *)
Theorem Readlink_not_a_symlink (wfs : mount.WFS) (cancel : bool)
    (header : fuse.InHeader) (entryFullPath : util.FullPath)
    (cache : mount.MetaCache) (entry : filer_pb.Entry)
    (attributes : filer_pb.FuseAttributes) :
  mount.GetPath (mount.inodeToPath wfs) (fuse.NodeId header)
    = (entryFullPath, fuse.OK) ->
  mount.maybeLoadEntry (mount.metaCache wfs) (mount.filer wfs) entryFullPath
    = (cache, (Some entry, fuse.OK)) ->
  filer_pb.Attributes entry = Some attributes ->
  Z.land (filer_pb.FileMode attributes) os.ModeSymlink = 0 ->
  exists wfs',
    mount.Readlink wfs cancel header = Return (wfs', (None, fuse.EINVAL)).
Proof.
  intros Hp Hl Ha Hm. unfold mount.Readlink. cbn.
  rewrite Hp. cbn. rewrite Hl. cbn. rewrite Ha. cbn. rewrite Hm. cbn.
  eexists. reflexivity.
Qed.

End mount_facts.

(** ** More on the Entry model *)

Lemma map_index_store_ne (entry : filer.Entry) (key key' : string) (val : bytes) :
  key <> key' ->
  map_index (filer.Extended (filer.store_xattr entry key val)) key'
    = map_index (filer.Extended entry) key'.
Proof.
  intros Hne. unfold filer.store_xattr, filer.set_Extended, map_index. cbn.
  rewrite lookup_insert_ne by exact Hne.
  destruct (filer.Extended entry); [reflexivity|].
  rewrite lookup_empty. reflexivity.
Qed.

Lemma store_xattr_twice (entry : filer.Entry) (key : string) (v w : bytes) :
  filer.store_xattr (filer.store_xattr entry key v) key w
    = filer.store_xattr entry key w.
Proof.
  unfold filer.store_xattr, filer.set_Extended. cbn.
  rewrite insert_insert_eq. reflexivity.
Qed.

Lemma store_xattr_commute (entry : filer.Entry) (k k' : string) (v w : bytes) :
  k <> k' ->
  filer.store_xattr (filer.store_xattr entry k v) k' w
    = filer.store_xattr (filer.store_xattr entry k' w) k v.
Proof.
  intros Hne. unfold filer.store_xattr, filer.set_Extended. cbn.
  rewrite insert_insert_ne by congruence. reflexivity.
Qed.

Lemma store_xattr_frame (entry : filer.Entry) (key : string) (val : bytes) :
  only_xattr_changed key entry (filer.store_xattr entry key val).
Proof.
  unfold only_xattr_changed. repeat split; try reflexivity.
  - discriminate.
  - intros k Hk. apply map_index_store_ne. congruence.
Qed.

Lemma land_pow2 (a n : Z) :
  0 <= n -> Z.land a (2 ^ n) = if Z.testbit a n then 2 ^ n else 0.
Proof.
  intros Hn. apply Z.bits_inj'. intros i Hi.
  rewrite Z.land_spec, Z.pow2_bits_eqb by exact Hn.
  destruct (Z.eqb_spec n i) as [->|Hni].
  - rewrite andb_true_r. destruct (Z.testbit a i).
    + rewrite Z.pow2_bits_true by exact Hi. reflexivity.
    + rewrite Z.bits_0. reflexivity.
  - rewrite andb_false_r. destruct (Z.testbit a n).
    + rewrite Z.pow2_bits_false by exact Hni. reflexivity.
    + rewrite Z.bits_0. reflexivity.
Qed.

(** Every decimal of an [int64] reads back: [strconv.Atoi] of what [%d]
    writes is the number, sign included. *)
Lemma Atoi_Sprintf_d_int64 (b : Z) :
  - 2 ^ 63 <= b < 2 ^ 63 -> strconv.Atoi (strconv.Sprintf_d b) = (b, None).
Proof.
  intros Hb. destruct (Z.ltb_spec b 0) as [Hneg|Hpos];
    [|apply Atoi_Sprintf_d; lia].
  unfold strconv.Sprintf_d. destruct (Z.ltb_spec b 0); [|lia].
  assert (Hu : 0 <= - b < 10 ^ Z.of_nat 20).
  { change (10 ^ Z.of_nat 20) with 100000000000000000000.
    change (2 ^ 63) with 9223372036854775808 in Hb. lia. }
  destruct (fmt_digits_value 19 (- b) Hu) as (Hne & Hd & Hv).
  set (ds := strconv.fmt_digits 20 (- b) []) in *.
  unfold strconv.Atoi. cbn [list_ascii_of_string].
  rewrite list_ascii_of_string_of_list_ascii.
  destruct ds as [|c cs] eqn:Hds; [congruence|].
  destruct (_ && _).
  - change (Ascii.eqb "-" "-") with true. cbn [orb].
    rewrite atoi_fast_loop_digits by exact Hd. rewrite Hv.
    f_equal. lia.
  - unfold strconv.ParseInt10.
    change (Ascii.eqb "-" "-") with true. change (Ascii.eqb "-" "+") with false.
    cbn [orb]. unfold strconv.ParseUint10.
    rewrite parseUint_loop_digits;
      [|exact Hd|lia|rewrite Hv; change (2 ^ 64) with (2 * 2 ^ 63); lia].
    rewrite bool_decide_eq_false_2 by (intros Hn; apply Hn; reflexivity).
    cbn [andb negb]. rewrite Hv.
    destruct (Z.gtb_spec (- b) (2 ^ 63)); [lia|].
    f_equal. lia.
Qed.

Lemma atoi_fast_loop_error (cs : list ascii) : forall (n v : Z) (e : string),
  strconv.atoi_fast_loop cs n = (v, Some e) -> Some e = strconv.ErrSyntax.
Proof.
  induction cs as [|c cs IH]; intros n v e; simpl; [discriminate|].
  destruct (_ >? _); [intros [= _ <-]; reflexivity|]. apply IH.
Qed.

Lemma parseUint_loop_error (cs : list ascii) : forall (n v : Z) (e : string),
  strconv.parseUint_loop cs n = (v, Some e) ->
  Some e = strconv.ErrSyntax \/ Some e = strconv.ErrRange.
Proof.
  induction cs as [|c cs IH]; intros n v e; simpl; [discriminate|].
  destruct (_ && _); [|intros [= _ <-]; left; reflexivity].
  destruct (_ >=? _); [intros [= _ <-]; right; reflexivity|].
  destruct (_ || _); [intros [= _ <-]; right; reflexivity|]. apply IH.
Qed.

Lemma ParseUint10_error (s : list ascii) (v : Z) (e : string) :
  strconv.ParseUint10 s = (v, Some e) ->
  Some e = strconv.ErrSyntax \/ Some e = strconv.ErrRange.
Proof.
  unfold strconv.ParseUint10. destruct s; [intros [= _ <-]; left; reflexivity|].
  apply parseUint_loop_error.
Qed.

(** Beside an error, [strconv.Atoi] returns zero, the largest [int] or
    the smallest. *)
Lemma Atoi_error_values (s : string) (v : Z) (e : string) :
  strconv.Atoi s = (v, Some e) ->
  (Some e = strconv.ErrSyntax /\ v = 0) \/
  (Some e = strconv.ErrRange /\ (v = 2 ^ 63 - 1 \/ v = - 2 ^ 63)).
Proof.
  unfold strconv.Atoi. intros Hs.
  destruct (_ && _).
  - left.
    destruct (list_ascii_of_string s) as [|c cs]; [injection Hs as <- <-; split; reflexivity|].
    destruct (Ascii.eqb c "-" || Ascii.eqb c "+").
    + destruct cs as [|d ds]; [injection Hs as <- <-; split; reflexivity|].
      destruct (strconv.atoi_fast_loop (d :: ds) 0) as [n [err|]] eqn:Hl;
        [|discriminate].
      injection Hs as <- <-. apply atoi_fast_loop_error in Hl. split; [exact Hl|reflexivity].
    + destruct (strconv.atoi_fast_loop (c :: cs) 0) as [n [err|]] eqn:Hl;
        [|discriminate].
      injection Hs as <- <-. apply atoi_fast_loop_error in Hl. split; [exact Hl|reflexivity].
  - unfold strconv.ParseInt10 in Hs.
    destruct (list_ascii_of_string s) as [|c cs]; [left; injection Hs as <- <-; split; reflexivity|].
    destruct (strconv.ParseUint10 _) as [un err] eqn:Hu.
    destruct (bool_decide (err <> None) && bool_decide (err <> strconv.ErrRange)) eqn:Hb.
    + left. injection Hs as <- <-.
      apply andb_true_iff in Hb as [Hb1 Hb2].
      apply bool_decide_eq_true_1 in Hb1, Hb2.
      destruct err as [e'|]; [|congruence].
      destruct (ParseUint10_error _ _ _ Hu) as [He|He]; [|congruence].
      split; [exact He|reflexivity].
    + right. cbv zeta in Hs. clear Hb.
      destruct (negb (Ascii.eqb c "-") && (un >=? 2 ^ 63));
        [inversion Hs; subst; split; [reflexivity|left; reflexivity]|].
      destruct (Ascii.eqb c "-" && (un >? 2 ^ 63));
        [inversion Hs; subst; split; [reflexivity|right; reflexivity]|].
      discriminate.
Qed.

Section more_entry_facts.
Context `{util.Fns} `{filer.Helpers}.

(** A counter that is unset reads as zero: with a nil map, an absent key
    or an empty value, each getter returns 0 before it decodes
    anything. *)
Theorem getters_zero_when_unset (entry : filer.Entry) :
  (map_index (filer.Extended entry) "xattr-size" = "" ->
   filer.GetXAttrSize entry = 0) /\
  (map_index (filer.Extended entry) "xattr-quota-size" = "" ->
   filer.GetXAttrSizeQuota entry = 0) /\
  (map_index (filer.Extended entry) "xattr-inode" = "" ->
   filer.GetXAttrInodeCount entry = 0) /\
  (map_index (filer.Extended entry) "xattr-quota-inode" = "" ->
   filer.GetXAttrInodeQuota entry = 0) /\
  (filer.Extended entry = None ->
   filer.GetXAttrSize entry = 0 /\ filer.GetXAttrSizeQuota entry = 0 /\
   filer.GetXAttrInodeCount entry = 0 /\ filer.GetXAttrInodeQuota entry = 0).
Proof.
  unfold filer.GetXAttrSize, filer.GetXAttrSizeQuota,
    filer.GetXAttrInodeCount, filer.GetXAttrInodeQuota.
  change (filer.XATTR_PREFIX +:+ filer.Size_Key) with "xattr-size".
  change (filer.XATTR_PREFIX +:+ filer.Size_Quota_Key) with "xattr-quota-size".
  change (filer.XATTR_PREFIX +:+ filer.Inode_Key) with "xattr-inode".
  change (filer.XATTR_PREFIX +:+ filer.Inode_Quota_Key) with "xattr-quota-inode".
  repeat apply conj; try (intros ->; reflexivity).
  intros ->. repeat split.
Qed.

(** The four counters are independent: a setter leaves the three other
    getters as they were. *)
Theorem setters_leave_other_counters (entry : filer.Entry) (b : Z) :
  (filer.GetXAttrSizeQuota (filer.SetXAttrSize entry b) = filer.GetXAttrSizeQuota entry /\
   filer.GetXAttrInodeCount (filer.SetXAttrSize entry b) = filer.GetXAttrInodeCount entry /\
   filer.GetXAttrInodeQuota (filer.SetXAttrSize entry b) = filer.GetXAttrInodeQuota entry) /\
  (filer.GetXAttrSize (filer.SetXAttrSizeQuota entry b) = filer.GetXAttrSize entry /\
   filer.GetXAttrInodeCount (filer.SetXAttrSizeQuota entry b) = filer.GetXAttrInodeCount entry /\
   filer.GetXAttrInodeQuota (filer.SetXAttrSizeQuota entry b) = filer.GetXAttrInodeQuota entry) /\
  (filer.GetXAttrSize (filer.SetXAttrInodeCount entry b) = filer.GetXAttrSize entry /\
   filer.GetXAttrSizeQuota (filer.SetXAttrInodeCount entry b) = filer.GetXAttrSizeQuota entry /\
   filer.GetXAttrInodeQuota (filer.SetXAttrInodeCount entry b) = filer.GetXAttrInodeQuota entry) /\
  (filer.GetXAttrSize (filer.SetXAttrInodeCountQuota entry b) = filer.GetXAttrSize entry /\
   filer.GetXAttrSizeQuota (filer.SetXAttrInodeCountQuota entry b) = filer.GetXAttrSizeQuota entry /\
   filer.GetXAttrInodeCount (filer.SetXAttrInodeCountQuota entry b) = filer.GetXAttrInodeCount entry).
Proof.
  unfold filer.GetXAttrSize, filer.GetXAttrSizeQuota,
    filer.GetXAttrInodeCount, filer.GetXAttrInodeQuota,
    filer.SetXAttrSize, filer.SetXAttrSizeQuota,
    filer.SetXAttrInodeCount, filer.SetXAttrInodeCountQuota.
  change (filer.XATTR_PREFIX +:+ filer.Size_Key) with "xattr-size".
  change (filer.XATTR_PREFIX +:+ filer.Size_Quota_Key) with "xattr-quota-size".
  change (filer.XATTR_PREFIX +:+ filer.Inode_Key) with "xattr-inode".
  change (filer.XATTR_PREFIX +:+ filer.Inode_Quota_Key) with "xattr-quota-inode".
  repeat split; rewrite map_index_store_ne by discriminate; reflexivity.
Qed.

(** A setter writes one key and nothing else: path, attributes, chunks,
    hard-link fields, content, remote pointer and quota stay, the map is
    allocated, and every other extended attribute reads as before. *)
Theorem setters_write_one_key (entry : filer.Entry) (b : Z) :
  only_xattr_changed "xattr-size" entry (filer.SetXAttrSize entry b) /\
  only_xattr_changed "xattr-quota-size" entry (filer.SetXAttrSizeQuota entry b) /\
  only_xattr_changed "xattr-inode" entry (filer.SetXAttrInodeCount entry b) /\
  only_xattr_changed "xattr-quota-inode" entry (filer.SetXAttrInodeCountQuota entry b).
Proof.
  unfold filer.SetXAttrSize, filer.SetXAttrSizeQuota,
    filer.SetXAttrInodeCount, filer.SetXAttrInodeCountQuota.
  repeat apply conj; apply store_xattr_frame.
Qed.

(** The last write wins for each of the four setters, and the writes of
    any two different counters, all six pairs, commute. *)
Theorem setters_overwrite_and_commute (entry : filer.Entry) (a b : Z) :
  filer.SetXAttrSize (filer.SetXAttrSize entry a) b = filer.SetXAttrSize entry b /\
  filer.SetXAttrSizeQuota (filer.SetXAttrSizeQuota entry a) b
    = filer.SetXAttrSizeQuota entry b /\
  filer.SetXAttrInodeCount (filer.SetXAttrInodeCount entry a) b
    = filer.SetXAttrInodeCount entry b /\
  filer.SetXAttrInodeCountQuota (filer.SetXAttrInodeCountQuota entry a) b
    = filer.SetXAttrInodeCountQuota entry b /\
  filer.SetXAttrSize (filer.SetXAttrSizeQuota entry a) b
    = filer.SetXAttrSizeQuota (filer.SetXAttrSize entry b) a /\
  filer.SetXAttrSize (filer.SetXAttrInodeCount entry a) b
    = filer.SetXAttrInodeCount (filer.SetXAttrSize entry b) a /\
  filer.SetXAttrSize (filer.SetXAttrInodeCountQuota entry a) b
    = filer.SetXAttrInodeCountQuota (filer.SetXAttrSize entry b) a /\
  filer.SetXAttrSizeQuota (filer.SetXAttrInodeCount entry a) b
    = filer.SetXAttrInodeCount (filer.SetXAttrSizeQuota entry b) a /\
  filer.SetXAttrSizeQuota (filer.SetXAttrInodeCountQuota entry a) b
    = filer.SetXAttrInodeCountQuota (filer.SetXAttrSizeQuota entry b) a /\
  filer.SetXAttrInodeCount (filer.SetXAttrInodeCountQuota entry a) b
    = filer.SetXAttrInodeCountQuota (filer.SetXAttrInodeCount entry b) a.
Proof.
  unfold filer.SetXAttrSize, filer.SetXAttrSizeQuota,
    filer.SetXAttrInodeCount, filer.SetXAttrInodeCountQuota.
  repeat split; try apply store_xattr_twice; apply store_xattr_commute; discriminate.
Qed.

(** The inode-count getters return what [strconv.Atoi] reads: a counter
    that holds a run of decimal digits, of any length and with any
    leading zeros, reads as the number it denotes when that is below
    [2^63]. *)
Theorem inode_getters_read_digits (entry : filer.Entry) (ds : list ascii) :
  ds <> [] -> Forall is_digit ds -> dec_value ds 0 < 2 ^ 63 ->
  (map_index (filer.Extended entry) "xattr-inode" = string_of_list_ascii ds ->
   filer.GetXAttrInodeCount entry = dec_value ds 0) /\
  (map_index (filer.Extended entry) "xattr-quota-inode" = string_of_list_ascii ds ->
   filer.GetXAttrInodeQuota entry = dec_value ds 0).
Proof.
  intros Hne Hd Hv.
  assert (Hlen : (len (string_of_list_ascii ds) =? 0) = false).
  { destruct ds; [congruence|]. reflexivity. }
  assert (Hpos : 0 <= dec_value ds 0) by (apply dec_value_ge; [exact Hd|lia]).
  unfold filer.GetXAttrInodeCount, filer.GetXAttrInodeQuota.
  change (filer.XATTR_PREFIX +:+ filer.Inode_Key) with "xattr-inode".
  change (filer.XATTR_PREFIX +:+ filer.Inode_Quota_Key) with "xattr-quota-inode".
  split; intros ->; rewrite Hlen, Atoi_digits by assumption;
    apply uint64_small; change (2 ^ 64) with (2 * 2 ^ 63); lia.
Qed.

(** Only the setters clamp.  A counter that holds the decimal text of a
    negative [int64] decodes without error, and the getter returns it
    converted to [uint64]: [2^64 + b], at least [2^63]. *)
Theorem inode_getters_wrap_negative (entry : filer.Entry) (b : Z) :
  - 2 ^ 63 <= b < 0 ->
  (map_index (filer.Extended entry) "xattr-inode" = strconv.Sprintf_d b ->
   filer.GetXAttrInodeCount entry = 2 ^ 64 + b) /\
  (map_index (filer.Extended entry) "xattr-quota-inode" = strconv.Sprintf_d b ->
   filer.GetXAttrInodeQuota entry = 2 ^ 64 + b).
Proof.
  intros Hb.
  assert (Hlen : (len (strconv.Sprintf_d b) =? 0) = false).
  { unfold strconv.Sprintf_d. destruct (Z.ltb_spec b 0); [reflexivity|lia]. }
  assert (Hw : uint64 b = 2 ^ 64 + b).
  { unfold uint64. change (2 ^ 64) with (2 * 2 ^ 63) in *.
    symmetry. apply Z.mod_unique_pos with (q := -1); lia. }
  unfold filer.GetXAttrInodeCount, filer.GetXAttrInodeQuota.
  change (filer.XATTR_PREFIX +:+ filer.Inode_Key) with "xattr-inode".
  change (filer.XATTR_PREFIX +:+ filer.Inode_Quota_Key) with "xattr-quota-inode".
  split; intros ->; rewrite Hlen, Atoi_Sprintf_d_int64 by lia; exact Hw.
Qed.

(** What the inode-count getters return for a counter that
    [strconv.Atoi] rejects: zero beside a syntax error, and beside a
    range error [2^63 - 1] for a text above the range and [2^63] for one
    below it. *)
Theorem inode_getters_on_decode_error (entry : filer.Entry) (v : Z) (e : string) :
  (strconv.Atoi (map_index (filer.Extended entry) "xattr-inode") = (v, Some e) ->
   (Some e = strconv.ErrSyntax /\ filer.GetXAttrInodeCount entry = 0) \/
   (Some e = strconv.ErrRange /\
    (filer.GetXAttrInodeCount entry = 2 ^ 63 - 1 \/
     filer.GetXAttrInodeCount entry = 2 ^ 63))) /\
  (strconv.Atoi (map_index (filer.Extended entry) "xattr-quota-inode") = (v, Some e) ->
   (Some e = strconv.ErrSyntax /\ filer.GetXAttrInodeQuota entry = 0) \/
   (Some e = strconv.ErrRange /\
    (filer.GetXAttrInodeQuota entry = 2 ^ 63 - 1 \/
     filer.GetXAttrInodeQuota entry = 2 ^ 63))).
Proof.
  unfold filer.GetXAttrInodeCount, filer.GetXAttrInodeQuota.
  change (filer.XATTR_PREFIX +:+ filer.Inode_Key) with "xattr-inode".
  change (filer.XATTR_PREFIX +:+ filer.Inode_Quota_Key) with "xattr-quota-inode".
  split; intros Ha;
    (destruct (Atoi_error_values _ _ _ Ha) as [[He ->]|[He [->| ->]]];
     [left|right|right]; (split; [exact He|]); rewrite Ha;
     [ destruct (_ =? _); reflexivity
     | destruct (len _ =? 0) eqn:Hl;
       [ apply Z.eqb_eq in Hl;
         destruct (map_index _ _); [discriminate Ha|unfold len in Hl; simpl in Hl; lia]
       | left; reflexivity ]
     | destruct (len _ =? 0) eqn:Hl;
       [ apply Z.eqb_eq in Hl;
         destruct (map_index _ _); [discriminate Ha|unfold len in Hl; simpl in Hl; lia]
       | right; reflexivity ] ]).
Qed.

(** [IsDirectory] is bit 31 of the mode and nothing else, and
    [Timestamp] follows it: creation time for a directory, modification
    time otherwise. *)
Theorem directory_bit (entry : filer.Entry) :
  filer.IsDirectory (filer.attr entry) = Z.testbit (filer.Mode (filer.attr entry)) 31 /\
  filer.Timestamp entry =
    if Z.testbit (filer.Mode (filer.attr entry)) 31
    then filer.Crtime (filer.attr entry)
    else filer.Mtime (filer.attr entry).
Proof.
  assert (Hd : filer.IsDirectory (filer.attr entry)
               = Z.testbit (filer.Mode (filer.attr entry)) 31).
  { unfold filer.IsDirectory, os.ModeDir. rewrite land_pow2 by lia.
    destruct (Z.testbit _ 31); reflexivity. }
  split; [exact Hd|]. unfold filer.Timestamp. rewrite Hd. reflexivity.
Qed.

(** An entry survives the wire whole when the attribute codec and the
    path helpers invert each other on it: [FromPbEntry] of [ToProtoEntry]
    under the entry's directory is the entry. *)
Theorem wire_roundtrip_whole (entry : filer.Entry) (dir : string) :
  filer.PbToEntryAttribute (filer.EntryAttributeToPb entry) = filer.attr entry ->
  util.NewFullPath dir (util.Name (filer.FullPath entry)) = filer.FullPath entry ->
  exists message : filer_pb.Entry,
    filer.ToProtoEntry (Some entry) = Return (Some message) /\
    filer.FromPbEntry dir (Some message) = Return entry.
Proof.
  intros Ha Hp. eexists. split; [reflexivity|].
  unfold filer.FromPbEntry, filer.FromPbEntryToExistingEntry. cbn.
  rewrite Ha, Hp. destruct entry. reflexivity.
Qed.

(** The other way round, a message read with [FromPbEntry] and written
    back with [ToProtoEntry] keeps its chunks, extended attributes,
    hard-link fields, content, remote entry and quota.  Its [IsDirectory]
    flag is not read: the flag written back is computed from the mode
    bits.  A nil message makes [FromPbEntry] fault. *)
Theorem wire_roundtrip_message (message : filer_pb.Entry) (dir : string) :
  (exists (entry : filer.Entry) (back : filer_pb.Entry),
      filer.FromPbEntry dir (Some message) = Return entry /\
      filer.ToProtoEntry (Some entry) = Return (Some back) /\
      filer_pb.Name back = util.Name (util.NewFullPath dir (filer_pb.Name message)) /\
      filer_pb.IsDirectory back
        = filer.IsDirectory (filer.PbToEntryAttribute (filer_pb.Attributes message)) /\
      filer_pb.Chunks back = filer_pb.Chunks message /\
      filer_pb.Extended back = filer_pb.Extended message /\
      filer_pb.HardLinkId back = filer_pb.HardLinkId message /\
      filer_pb.HardLinkCounter back = filer_pb.HardLinkCounter message /\
      filer_pb.Content back = filer_pb.Content message /\
      filer_pb.RemoteEntry back = filer_pb.RemoteEntry message /\
      filer_pb.Quota back = filer_pb.Quota message) /\
  filer.FromPbEntry dir None = Panic.
Proof.
  split; [|reflexivity].
  eexists. eexists. split; [reflexivity|]. split; [reflexivity|]. repeat split.
Qed.

(** [ToExistingProtoEntry] keeps nothing of the message but its name:
    whatever the message held before, the result is the same; and with a
    nil message and an entry to write it faults. *)
Theorem ToExistingProtoEntry_overwrites (entry : filer.Entry)
    (m1 m2 : filer_pb.Entry) :
  filer_pb.Name m1 = filer_pb.Name m2 ->
  filer.ToExistingProtoEntry (Some entry) (Some m1)
    = filer.ToExistingProtoEntry (Some entry) (Some m2) /\
  filer.ToExistingProtoEntry (Some entry) None = Panic.
Proof.
  intros Hn. split; [|reflexivity]. cbn. rewrite Hn. reflexivity.
Qed.

(** [ToProtoFullEntry] of an entry returns the directory of the entry's
    path together with the very message that [ToProtoEntry] returns.
    That pair is enough to rebuild the entry when the attribute codec
    and the path helpers invert on it: then [FromPbEntry] of the pair's
    directory and message is the entry. *)
Theorem full_entry_roundtrip (entry : filer.Entry) :
  exists (full : filer_pb.FullEntry) (message : filer_pb.Entry),
    filer.ToProtoFullEntry (Some entry) = Return (Some full) /\
    filer.ToProtoEntry (Some entry) = Return (Some message) /\
    filer_pb.Dir full = (util.DirAndName (filer.FullPath entry)).1 /\
    filer_pb.FullEntry_Entry full = Some message /\
    (filer.PbToEntryAttribute (filer.EntryAttributeToPb entry) = filer.attr entry ->
     util.NewFullPath (util.DirAndName (filer.FullPath entry)).1
                      (util.Name (filer.FullPath entry)) = filer.FullPath entry ->
     filer.FromPbEntry (filer_pb.Dir full) (Some message) = Return entry).
Proof.
  unfold filer.ToProtoFullEntry.
  destruct (util.DirAndName (filer.FullPath entry)) as [dir n] eqn:Hd.
  cbn in *. eexists. eexists.
  split; [reflexivity|]. split; [reflexivity|].
  split; [reflexivity|]. split; [reflexivity|].
  intros Ha Hp.
  unfold filer.FromPbEntry, filer.FromPbEntryToExistingEntry. cbn.
  rewrite Ha, Hp. destruct entry. reflexivity.
Qed.

End more_entry_facts.

(** ** More on [Symlink] and [Readlink] *)

Lemma status_not_OK (code : fuse.Status) :
  negb (code =? fuse.OK) = true <-> code <> fuse.OK.
Proof.
  unfold fuse.OK. destruct (Z.eqb_spec code 0); cbn; split; congruence.
Qed.

Section more_mount_facts.
Context `{util.Fns} `{filer.Helpers} `{mount.Collaborators}.

(** What a successful [Symlink] has done.  The mount was not over quota,
    the name passed [checkName] and the parent inode resolved; one create
    request went out, for the parent's path, carrying the entry built
    from the call after [mapPbIdFromLocalToFiler], and the filer accepted
    it; the metadata cache received [FromPbEntry] of that same entry; the
    inode table was asked for the child path with no inode hint; and the
    reply was filled from the entry mapped back. *)
Theorem Symlink_success (wfs wfs' : mount.WFS) (cancel : bool)
    (header : fuse.InHeader) (target name : string) (out out' : mount.EntryOut)
    (mtime crtime : Z) :
  mount.Symlink wfs cancel header target name out mtime crtime
    = Return (wfs', out', fuse.OK) ->
  exists (dirPath : util.FullPath) (client : mount.FilerClient)
         (t : filer.Entry) (attributes : filer_pb.FuseAttributes)
         (table : mount.InodeToPath) (inode : Z),
    let entry := mount.mapPbIdFromLocalToFiler
                   (mount.symlink_entry header target name mtime crtime) in
    let request := {| filer_pb.Directory := dirPath;
                      filer_pb.Entry_ := Some entry;
                      filer_pb.Signatures := [mount.signature wfs] |} in
    mount.IsOverQuota wfs = false /\
    mount.checkName name = fuse.OK /\
    mount.GetPath (mount.inodeToPath wfs) (fuse.NodeId header) = (dirPath, fuse.OK) /\
    mount.CreateEntry (mount.filer wfs) request = (client, None) /\
    mount.filer wfs' = client /\
    mount.filer_calls wfs' = mount.filer_calls wfs ++ [request] /\
    filer.FromPbEntry dirPath (Some entry) = Return t /\
    mount.metaCache wfs' = (mount.InsertEntry (mount.metaCache wfs) t).1 /\
    filer_pb.Attributes (mount.mapPbIdFromFilerToLocal entry) = Some attributes /\
    mount.Lookup (mount.inodeToPath wfs) (util.Child dirPath name)
                 (filer_pb.Crtime attributes) false false 0 true = (table, inode) /\
    mount.inodeToPath wfs' = table /\
    out' = mount.outputPbEntry out inode (mount.mapPbIdFromFilerToLocal entry).
Proof.
  unfold mount.Symlink. cbn.
  destruct (mount.IsOverQuota wfs) eqn:Hq; [discriminate|].
  destruct (negb _) eqn:Hn; [intros [= _ _ Hc]; apply status_not_OK in Hn; congruence|].
  destruct (mount.GetPath _ _) as [dirPath code] eqn:Hp.
  destruct (negb (code =? _)) eqn:Hc;
    [intros [= _ _ Hc']; apply status_not_OK in Hc; congruence|].
  destruct (mount.CreateEntry _ _) as [client [err|]] eqn:Hcr; [discriminate|].
  cbn.
  destruct (filer_pb.Attributes (mount.mapPbIdFromFilerToLocal _))
    as [attributes|] eqn:Ha; cbn; [|discriminate].
  destruct (mount.Lookup _ _ _ _ _ _ _) as [table inode] eqn:Hl.
  intros [= <- <-]. cbn.
  apply negb_false_iff, Z.eqb_eq in Hn, Hc. subst code.
  eexists dirPath, client, _, attributes, table, inode. cbn.
  repeat split; try assumption; reflexivity.
Qed.

(** A [Symlink] that does not return [OK] has changed neither the
    metadata cache, nor the inode table, nor the reply buffer, nor the
    quota flag.  It sent nothing to the filer either, unless the filer
    refused the one create request, and then the status is [EIO]. *)
Theorem Symlink_failure_changes_nothing (wfs wfs' : mount.WFS) (cancel : bool)
    (header : fuse.InHeader) (target name : string) (out out' : mount.EntryOut)
    (mtime crtime : Z) (code : fuse.Status) :
  mount.Symlink wfs cancel header target name out mtime crtime
    = Return (wfs', out', code) ->
  code <> fuse.OK ->
  mount.metaCache wfs' = mount.metaCache wfs /\
  mount.inodeToPath wfs' = mount.inodeToPath wfs /\
  out' = out /\
  mount.IsOverQuota wfs' = mount.IsOverQuota wfs /\
  mount.signature wfs' = mount.signature wfs /\
  ((mount.filer wfs' = mount.filer wfs /\
    mount.filer_calls wfs' = mount.filer_calls wfs) \/
   (code = fuse.EIO /\
    exists (request : filer_pb.CreateEntryRequest) (e : string),
      mount.CreateEntry (mount.filer wfs) request = (mount.filer wfs', Some e) /\
      mount.filer_calls wfs' = mount.filer_calls wfs ++ [request])).
Proof.
  unfold mount.Symlink. cbn.
  destruct (mount.IsOverQuota wfs) eqn:Hq;
    [intros [= <- <- <-] _; cbn; rewrite Hq; repeat split; left; split; reflexivity|].
  destruct (negb _);
    [intros [= <- <- <-] _; cbn; rewrite Hq; repeat split; left; split; reflexivity|].
  destruct (mount.GetPath _ _) as [dirPath code'].
  destruct (negb (code' =? _));
    [intros [= <- <- <-] _; cbn; rewrite Hq; repeat split; left; split; reflexivity|].
  destruct (mount.CreateEntry _ _) as [client [err|]] eqn:Hcr.
  - intros [= <- <- <-] _. cbn. rewrite Hq. repeat split.
    right. split; [reflexivity|]. eexists _, err. split; [exact Hcr|reflexivity].
  - cbn. destruct (deref _) as [attributes|]; cbn; [|discriminate].
    destruct (mount.Lookup _ _ _ _ _ _ _) as [table inode].
    intros [= _ _ <-] Hne. congruence.
Qed.

(** When the filer refuses the create request, [Symlink] returns [EIO]
    with the request logged and the cache, the inode table and the reply
    as they were. *)
Theorem Symlink_remote_failure (wfs : mount.WFS) (cancel : bool)
    (header : fuse.InHeader) (target name : string) (out : mount.EntryOut)
    (mtime crtime : Z) (dirPath : util.FullPath) (client : mount.FilerClient)
    (e : string) :
  let request :=
    {| filer_pb.Directory := dirPath;
       filer_pb.Entry_ := Some (mount.mapPbIdFromLocalToFiler
                                  (mount.symlink_entry header target name mtime crtime));
       filer_pb.Signatures := [mount.signature wfs] |} in
  mount.IsOverQuota wfs = false ->
  mount.checkName name = fuse.OK ->
  mount.GetPath (mount.inodeToPath wfs) (fuse.NodeId header) = (dirPath, fuse.OK) ->
  mount.CreateEntry (mount.filer wfs) request = (client, Some e) ->
  exists wfs',
    mount.Symlink wfs cancel header target name out mtime crtime
      = Return (wfs', out, fuse.EIO) /\
    mount.filer wfs' = client /\
    mount.filer_calls wfs' = mount.filer_calls wfs ++ [request] /\
    mount.metaCache wfs' = mount.metaCache wfs /\
    mount.inodeToPath wfs' = mount.inodeToPath wfs.
Proof.
  intros request Hq Hn Hp Hc. unfold mount.Symlink. cbn.
  rewrite Hq, Hn. cbn. rewrite Hp. cbn. fold request. rewrite Hc.
  eexists. split; [reflexivity|]. repeat split.
Qed.

(** When the parent inode does not resolve, [Symlink] returns the status
    of [GetPath] and sends nothing. *)
Theorem Symlink_stale_parent (wfs : mount.WFS) (cancel : bool)
    (header : fuse.InHeader) (target name : string) (out : mount.EntryOut)
    (mtime crtime : Z) (dirPath : util.FullPath) (code : fuse.Status) :
  mount.IsOverQuota wfs = false ->
  mount.checkName name = fuse.OK ->
  mount.GetPath (mount.inodeToPath wfs) (fuse.NodeId header) = (dirPath, code) ->
  code <> fuse.OK ->
  exists wfs',
    mount.Symlink wfs cancel header target name out mtime crtime
      = Return (wfs', out, code) /\
    mount.filer wfs' = mount.filer wfs /\
    mount.filer_calls wfs' = mount.filer_calls wfs /\
    mount.metaCache wfs' = mount.metaCache wfs /\
    mount.inodeToPath wfs' = mount.inodeToPath wfs.
Proof.
  intros Hq Hn Hp Hc. unfold mount.Symlink. cbn.
  rewrite Hq, Hn. cbn. rewrite Hp.
  apply status_not_OK in Hc. rewrite Hc.
  eexists. split; [reflexivity|]. repeat split.
Qed.

(** The counterpart of the non-symlink case: when the inode resolves and
    the loaded entry has the symlink bit, [Readlink] returns the bytes of
    its target with [OK]. *)
Theorem Readlink_symlink (wfs : mount.WFS) (cancel : bool)
    (header : fuse.InHeader) (entryFullPath : util.FullPath)
    (cache : mount.MetaCache) (entry : filer_pb.Entry)
    (attributes : filer_pb.FuseAttributes) :
  mount.GetPath (mount.inodeToPath wfs) (fuse.NodeId header)
    = (entryFullPath, fuse.OK) ->
  mount.maybeLoadEntry (mount.metaCache wfs) (mount.filer wfs) entryFullPath
    = (cache, (Some entry, fuse.OK)) ->
  filer_pb.Attributes entry = Some attributes ->
  Z.testbit (filer_pb.FileMode attributes) 27 = true ->
  exists wfs',
    mount.Readlink wfs cancel header
      = Return (wfs', (Some (filer_pb.SymlinkTarget attributes), fuse.OK)) /\
    mount.metaCache wfs' = cache.
Proof.
  intros Hp Hl Ha Hm. unfold mount.Readlink. cbn.
  rewrite Hp. cbn. rewrite Hl. cbn. rewrite Ha. cbn.
  unfold os.ModeSymlink. rewrite land_pow2, Hm by lia. cbn.
  eexists. split; reflexivity.
Qed.

(** [Readlink] passes failures on: the status of [GetPath] with the cache
    untouched, or else the status of [maybeLoadEntry], each with a nil
    payload. *)
Theorem Readlink_passes_failures_on (wfs : mount.WFS) (cancel : bool)
    (header : fuse.InHeader) (entryFullPath : util.FullPath) (code : fuse.Status) :
  mount.GetPath (mount.inodeToPath wfs) (fuse.NodeId header) = (entryFullPath, code) ->
  (code <> fuse.OK ->
   exists wfs',
     mount.Readlink wfs cancel header = Return (wfs', (None, code)) /\
     mount.metaCache wfs' = mount.metaCache wfs) /\
  (code = fuse.OK ->
   forall cache entry status,
     mount.maybeLoadEntry (mount.metaCache wfs) (mount.filer wfs) entryFullPath
       = (cache, (entry, status)) ->
     status <> fuse.OK ->
     exists wfs',
       mount.Readlink wfs cancel header = Return (wfs', (None, status)) /\
       mount.metaCache wfs' = cache).
Proof.
  intros Hp. unfold mount.Readlink. cbn. rewrite Hp. split.
  - intros Hc. apply status_not_OK in Hc. rewrite Hc.
    eexists. split; reflexivity.
  - intros -> cache entry status Hl Hs. cbn. rewrite Hl.
    apply status_not_OK in Hs. rewrite Hs.
    eexists. split; reflexivity.
Qed.

(** [Readlink] only reads: when it returns, the inode table, the filer
    and its request log, the quota flag and the signature are as they
    were; and the payload is nil exactly when the status is not [OK]. *)
Theorem Readlink_only_reads (wfs wfs' : mount.WFS) (cancel : bool)
    (header : fuse.InHeader) (payload : option bytes) (code : fuse.Status) :
  mount.Readlink wfs cancel header = Return (wfs', (payload, code)) ->
  mount.inodeToPath wfs' = mount.inodeToPath wfs /\
  mount.filer wfs' = mount.filer wfs /\
  mount.filer_calls wfs' = mount.filer_calls wfs /\
  mount.IsOverQuota wfs' = mount.IsOverQuota wfs /\
  mount.signature wfs' = mount.signature wfs /\
  (payload = None <-> code <> fuse.OK).
Proof.
  unfold mount.Readlink. cbn.
  destruct (mount.GetPath _ _) as [entryFullPath code'].
  destruct (negb (code' =? _)) eqn:Hc.
  { intros [= <- <- <-]. apply status_not_OK in Hc. repeat split; congruence. }
  destruct (mount.maybeLoadEntry _ _ _) as [cache [entry status]].
  destruct (negb (status =? _)) eqn:Hs.
  { intros [= <- <- <-]. apply status_not_OK in Hs. repeat split; congruence. }
  destruct entry as [entry|]; cbn; [|discriminate].
  destruct (filer_pb.Attributes entry) as [attributes|]; cbn; [|discriminate].
  destruct (Z.land _ _ =? 0); intros [= <- <- <-];
    unfold fuse.OK, fuse.EINVAL; cbn; intuition (discriminate || congruence).
Qed.

(** [Readlink] dereferences what [maybeLoadEntry] hands it without a nil
    test.  It faults exactly when the inode resolves, the load reports
    [OK], and the entry or its attributes are nil. *)
Theorem Readlink_faults (wfs : mount.WFS) (cancel : bool) (header : fuse.InHeader) :
  mount.Readlink wfs cancel header = Panic <->
  exists (entryFullPath : util.FullPath) (cache : mount.MetaCache)
         (entry : option filer_pb.Entry),
    mount.GetPath (mount.inodeToPath wfs) (fuse.NodeId header)
      = (entryFullPath, fuse.OK) /\
    mount.maybeLoadEntry (mount.metaCache wfs) (mount.filer wfs) entryFullPath
      = (cache, (entry, fuse.OK)) /\
    (entry ≫= filer_pb.Attributes) = None.
Proof.
  unfold mount.Readlink. cbn.
  destruct (mount.GetPath _ _) as [entryFullPath code].
  destruct (negb (code =? _)) eqn:Hc.
  { apply status_not_OK in Hc. split; [discriminate|].
    intros (p & c & e & [= _ Hco] & _). congruence. }
  apply negb_false_iff, Z.eqb_eq in Hc. subst code.
  destruct (mount.maybeLoadEntry _ _ _) as [cache [entry status]] eqn:Hl.
  destruct (negb (status =? _)) eqn:Hs.
  { apply status_not_OK in Hs. split; [discriminate|].
    intros (p & c & e & [= <-] & Hl' & _). rewrite Hl in Hl'. congruence. }
  apply negb_false_iff, Z.eqb_eq in Hs. subst status.
  destruct entry as [entry|]; cbn.
  - destruct (filer_pb.Attributes entry) as [attributes|] eqn:Ha; cbn.
    + split; [destruct (Z.land _ _ =? 0); discriminate|].
      intros (p & c & e & [= <-] & Hl' & He). rewrite Hl in Hl'.
      injection Hl' as _ <-. cbn in He. congruence.
    + split; [|reflexivity]. intros _.
      exists entryFullPath, cache, (Some entry).
      split; [reflexivity|]. split; [exact Hl|exact Ha].
  - split; [|reflexivity]. intros _.
    exists entryFullPath, cache, None.
    split; [reflexivity|]. split; [exact Hl|reflexivity].
Qed.

End more_mount_facts.

(** ** The scenario on the collaborators of the design *)

Import model.

Lemma inode_of_Some (t : gmap Z InodeEntry) (p : util.FullPath) (inode : Z) :
  inode_of t p = Some inode -> exists e, t !! inode = Some e /\ path e = p.
Proof.
  unfold inode_of. intros Hi.
  destruct (head _) as [[i e]|] eqn:Hh; [|discriminate].
  injection Hi as <-.
  apply head_Some_elem_of in Hh.
  apply list_elem_of_filter in Hh as [Hp He].
  apply bool_decide_unpack in Hp.
  apply elem_of_map_to_list in He.
  exists e. split; assumption.
Qed.

Lemma Lookup_fresh_path (t : gmap Z InodeEntry) (p : util.FullPath) (unixTime : Z)
    (isDir isHardlink : bool) (table : gmap Z InodeEntry) (inode : Z) :
  Lookup t p unixTime isDir isHardlink 0 true = (table, inode) ->
  GetPath table inode = (p, fuse.OK) /\
  forall other e, t !! other = Some e -> path e <> p -> other <> inode.
Proof.
  unfold Lookup, GetPath. destruct (inode_of t p) as [i|] eqn:Hi.
  - intros [= <- <-]. destruct (inode_of_Some _ _ _ Hi) as (e & He & Hp).
    split.
    + rewrite lookup_alter_eq, He. cbn. rewrite Hp. reflexivity.
    + intros other e' He' Hne ->. congruence.
  - cbn. intros [= <- <-]. split.
    + rewrite lookup_insert_eq. reflexivity.
    + intros other e He Hne Heq.
      apply (is_fresh (dom t)). rewrite <- Heq. apply elem_of_dom. eauto.
Qed.

(** C4: the scenario of the design, on the collaborators of [model].
    When [Symlink] of target [/dir/target] as [link] under [/dir] succeeds
    for a caller with uid 1000, the metadata cache holds at [/dir/link] an
    entry with the symlink bit in its mode, the target [/dir/target] and
    owner uid 1000; the inode in the reply maps to [/dir/link] and differs
    from every inode that mapped to another path; and [Readlink] on that
    inode returns the bytes [/dir/target] with [OK]. *)
Theorem symlink_then_readlink (wfs wfs' : mount.WFS) (cancel : bool)
    (header : fuse.InHeader) (out out' : EntryOut) (mtime crtime : Z) :
  fuse.Uid header = 1000 ->
  mount.GetPath (mount.inodeToPath wfs) (fuse.NodeId header) = ("/dir", fuse.OK) ->
  mount.Symlink wfs cancel header "/dir/target" "link" out mtime crtime
    = Return (wfs', out', fuse.OK) ->
  (exists entry : filer.Entry,
      (mount.metaCache wfs' : gmap string filer.Entry) !! "/dir/link" = Some entry /\
      filer.FullPath entry = "/dir/link" /\
      Z.land (filer.Mode (filer.attr entry)) os.ModeSymlink = os.ModeSymlink /\
      filer.SymlinkTarget (filer.attr entry) = "/dir/target" /\
      filer.Uid (filer.attr entry) = 1000) /\
  mount.GetPath (mount.inodeToPath wfs') (out_NodeId out') = ("/dir/link", fuse.OK) /\
  (forall (other : Z) (e : InodeEntry),
      (mount.inodeToPath wfs : gmap Z InodeEntry) !! other = Some e ->
      path e <> "/dir/link" -> other <> out_NodeId out') /\
  forall (cancel' : bool) (header' : fuse.InHeader),
    fuse.NodeId header' = out_NodeId out' ->
    exists wfs'',
      mount.Readlink wfs' cancel' header' = Return (wfs'', (Some "/dir/target", fuse.OK)).
Proof.
  intros Huid Hdir. unfold mount.Symlink. cbn.
  destruct (mount.IsOverQuota wfs); [discriminate|].
  cbn in Hdir. rewrite Hdir. cbn.
  unfold CreateEntry. cbn.
  destruct (online (mount.filer wfs)); [|discriminate].
  cbn.
  destruct (Lookup _ _ _ _ _ _ _) as [table inode] eqn:Hl.
  intros [= <- <-]. cbn.
  apply Lookup_fresh_path in Hl as [Hpath Hfresh].
  split.
  { eexists. split; [apply lookup_insert_eq|]. cbn. rewrite Huid. repeat split. }
  split; [exact Hpath|].
  split; [exact Hfresh|].
  intros cancel' header' Hnode. unfold mount.Readlink. cbn.
  rewrite Hnode. cbn in Hpath. rewrite Hpath. cbn.
  unfold maybeLoadEntry. rewrite lookup_insert_eq. cbn.
  eexists. reflexivity.
Qed.

(** ** The byte-size codec of the design *)

Lemma length_append (s t : string) :
  String.length (s +:+ t) = (String.length s + String.length t)%nat.
Proof. induction s as [|c s IH]; simpl; [reflexivity|]. rewrite IH. reflexivity. Qed.

Lemma substring_prefix (s t : string) :
  String.substring 0 (String.length s) (s +:+ t) = s.
Proof.
  induction s as [|c s IH]; simpl.
  - destruct t; reflexivity.
  - rewrite IH. reflexivity.
Qed.

Lemma substring_all (t : string) : String.substring 0 (String.length t) t = t.
Proof. induction t as [|d t IH]; simpl; [reflexivity|]. rewrite IH. reflexivity. Qed.

Lemma substring_suffix (s t : string) :
  String.substring (String.length s) (String.length t) (s +:+ t) = t.
Proof.
  induction s as [|c s IH]; simpl; [apply substring_all|exact IH].
Qed.

Lemma drop_last_unit (s : string) : drop_last 2 (s +:+ " B") = s.
Proof.
  unfold drop_last. rewrite length_append. simpl String.length.
  replace (String.length s + 2 - 2)%nat with (String.length s) by lia.
  apply substring_prefix.
Qed.

Lemma last_bytes_unit (s : string) : last_bytes 2 (s +:+ " B") = " B".
Proof.
  unfold last_bytes. rewrite length_append. simpl String.length.
  replace (String.length s + 2 - 2)%nat with (String.length s) by lia.
  apply (substring_suffix s " B").
Qed.

(** [ParseBytes] reads back every size that [BytesToHumanReadable]
    writes. *)
Lemma ParseBytes_BytesToHumanReadable (n : Z) :
  0 <= n < 2 ^ 63 ->
  ParseBytes (BytesToHumanReadable n) = (n, None) /\
  len (BytesToHumanReadable n) <> 0.
Proof.
  intros Hn. unfold ParseBytes, BytesToHumanReadable.
  destruct (Sprintf_d_digits n Hn) as (ds & -> & Hne & Hd & Hv).
  split.
  - rewrite last_bytes_unit, drop_last_unit. cbn [String.eqb Ascii.eqb].
    change (" B" =? " B")%string with true. cbv iota.
    rewrite list_ascii_of_string_of_list_ascii.
    unfold strconv.ParseUint10. destruct ds as [|c cs]; [congruence|].
    rewrite parseUint_loop_digits;
      [rewrite Hv; reflexivity|exact Hd|lia|
       rewrite Hv; change (2 ^ 64) with (2 * 2 ^ 63); lia].
  - unfold len. rewrite length_append. simpl. lia.
Qed.

(** C2: on the byte-size codec of [model], for every entry and every
    [int64] input [b], each of the four setters stores what it stores for
    [max(b, 0)], and the getter of the same counter then returns exactly
    [max(b, 0)]: [GetXAttrSize] after [SetXAttrSize], [GetXAttrSizeQuota]
    after [SetXAttrSizeQuota], [GetXAttrInodeCount] after
    [SetXAttrInodeCount] and [GetXAttrInodeQuota] after
    [SetXAttrInodeCountQuota]. *)
Theorem xattr_roundtrip (entry : filer.Entry) (b : Z) :
  - 2 ^ 63 <= b < 2 ^ 63 ->
  (filer.SetXAttrSize entry b = filer.SetXAttrSize entry (Z.max b 0) /\
   filer.SetXAttrSizeQuota entry b = filer.SetXAttrSizeQuota entry (Z.max b 0) /\
   filer.SetXAttrInodeCount entry b = filer.SetXAttrInodeCount entry (Z.max b 0) /\
   filer.SetXAttrInodeCountQuota entry b =
     filer.SetXAttrInodeCountQuota entry (Z.max b 0)) /\
  filer.GetXAttrSize (filer.SetXAttrSize entry b) = Z.max b 0 /\
  filer.GetXAttrSizeQuota (filer.SetXAttrSizeQuota entry b) = Z.max b 0 /\
  filer.GetXAttrInodeCount (filer.SetXAttrInodeCount entry b) = Z.max b 0 /\
  filer.GetXAttrInodeQuota (filer.SetXAttrInodeCountQuota entry b) = Z.max b 0.
Proof.
  intros Hb.
  destruct (ParseBytes_BytesToHumanReadable (Z.max b 0)) as [Hdec Hlen]; [lia|].
  exact (xattr_set_then_get entry b Hb Hlen Hdec).
Qed.

(** ** Runs on concrete sessions *)

Example Size_of_file : filer.Size file_entry = 7.
Proof. vm_compute. reflexivity. Qed.

Example BytesToHumanReadable_1025 :
  ParseBytes (BytesToHumanReadable 1025) = (1025, None).
Proof. vm_compute. reflexivity. Qed.

Lemma Size_is_max_witness :
  len (filer.Content file_entry) < 2 ^ 63 /\
  filer.Size file_entry = Z.max (Z.max 4 5) 7.
Proof.
  assert (Hlen : len (filer.Content file_entry) < 2 ^ 63)
    by (vm_compute; reflexivity).
  split; [exact Hlen|].
  exact (Size_is_max file_entry Hlen).
Defined.

Lemma xattr_set_then_get_witness :
  filer.SetXAttrSize file_entry (-5) = filer.SetXAttrSize file_entry 0 /\
  filer.GetXAttrSize (filer.SetXAttrSize file_entry (-5)) = 0 /\
  filer.GetXAttrInodeQuota (filer.SetXAttrInodeCountQuota file_entry (-5)) = 0.
Proof.
  assert (Hb : - 2 ^ 63 <= -5 < 2 ^ 63) by lia.
  assert (Hlen : len (util.BytesToHumanReadable (Z.max (-5) 0)) <> 0)
    by (vm_compute; discriminate).
  assert (Hdec : util.ParseBytes (util.BytesToHumanReadable (Z.max (-5) 0))
                 = (Z.max (-5) 0, None)) by (vm_compute; reflexivity).
  destruct (xattr_set_then_get file_entry (-5) Hb Hlen Hdec)
    as ((Hs & _) & Hg & _ & _ & Hq).
  repeat split; assumption.
Defined.

Lemma xattr_roundtrip_large_values :
  filer.GetXAttrSizeQuota (filer.SetXAttrSizeQuota file_entry 1000000) = 1000000 /\
  filer.GetXAttrInodeCount (filer.SetXAttrInodeCount file_entry 9223372036854775807)
    = 9223372036854775807.
Proof. vm_compute. split; reflexivity. Qed.

Lemma limiter_weight_is_kept_witness :
  mount.available (mount.concurrentOpLimit linked.1) = 3 /\
  exists wfs',
    mount.Readlink (session false ∅ dir_table) false (caller 2)
      = Return (wfs', (None, fuse.ENOENT)) /\
    mount.available (mount.concurrentOpLimit wfs') = 3.
Proof.
  destruct (limiter_weight_is_kept (session false ∅ dir_table) false (caller 2)
              "/dir/target" "link" no_reply 100 100) as [Hs Hr].
  split.
  - apply (Hs linked.1 linked.2 fuse.OK). reflexivity.
  - eexists. split; [reflexivity|].
    eapply Hr. reflexivity.
Defined.

(** C3 as stated fails: the limiter of a session starts with 4 free units
    and has 3 after [Symlink] returns [ENOSPC], and 3 after [Readlink]
    returns not-found. *)
Lemma limiter_capacity_not_restored :
  let wfs := session true ∅ dir_table in
  (exists wfs',
      mount.Symlink wfs false (caller 2) "/dir/target" "link" no_reply 100 100
        = Return (wfs', no_reply, fuse.ENOSPC) /\
      mount.available (mount.concurrentOpLimit wfs')
        <> mount.available (mount.concurrentOpLimit wfs)) /\
  (exists wfs',
      mount.Readlink wfs false (caller 2) = Return (wfs', (None, fuse.ENOENT)) /\
      mount.available (mount.concurrentOpLimit wfs')
        <> mount.available (mount.concurrentOpLimit wfs)).
Proof.
  split; (eexists; split; [reflexivity|]); vm_compute; discriminate.
Qed.

Lemma Symlink_over_quota_witness :
  mount.IsOverQuota (session true ∅ dir_table) = true /\
  exists wfs',
    mount.Symlink (session true ∅ dir_table) false (caller 2)
                  "/dir/target" "link" no_reply 100 100
      = Return (wfs', no_reply, fuse.ENOSPC) /\
    mount.filer_calls wfs' = [] /\
    (mount.metaCache wfs' : gmap string filer.Entry) = ∅.
Proof.
  split; [reflexivity|].
  destruct (Symlink_over_quota (session true ∅ dir_table) false (caller 2)
              "/dir/target" "link" no_reply 100 100 eq_refl)
    as (wfs' & Hr & Hcalls & _ & Hcache & _).
  exists wfs'. repeat split; assumption.
Defined.



Lemma Readlink_not_a_symlink_witness :
  let wfs := session false {[ "/dir/file" := file_entry ]} file_table in
  mount.GetPath (mount.inodeToPath wfs) 3 = ("/dir/file", fuse.OK) /\
  exists wfs', mount.Readlink wfs false (caller 3) = Return (wfs', (None, fuse.EINVAL)).
Proof.
  intros wfs.
  assert (Hp : mount.GetPath (mount.inodeToPath wfs) (fuse.NodeId (caller 3))
               = ("/dir/file", fuse.OK)) by reflexivity.
  split; [exact Hp|].
  eapply (Readlink_not_a_symlink wfs false (caller 3) "/dir/file").
  - exact Hp.
  - reflexivity.
  - reflexivity.
  - vm_compute. reflexivity.
Defined.

Lemma symlink_then_readlink_witness :
  mount.Symlink (session false ∅ dir_table) false (caller 2)
                "/dir/target" "link" no_reply 100 100
    = Return (linked.1, linked.2, fuse.OK) /\
  out_NodeId linked.2 = 3 /\
  mount.GetPath (mount.inodeToPath linked.1) 3 = ("/dir/link", fuse.OK) /\
  exists wfs'',
    mount.Readlink linked.1 false (caller 3)
      = Return (wfs'', (Some "/dir/target", fuse.OK)).
Proof.
  assert (Hs : mount.Symlink (session false ∅ dir_table) false (caller 2)
                 "/dir/target" "link" no_reply 100 100
               = Return (linked.1, linked.2, fuse.OK)) by reflexivity.
  assert (Hd : mount.GetPath (mount.inodeToPath (session false ∅ dir_table))
                 (fuse.NodeId (caller 2)) = ("/dir", fuse.OK))
    by reflexivity.
  assert (Hn : out_NodeId linked.2 = 3) by (vm_compute; reflexivity).
  destruct (symlink_then_readlink (session false ∅ dir_table) linked.1 false
              (caller 2) no_reply linked.2 100 100 eq_refl Hd Hs)
    as (_ & Hp & _ & Hr).
  split; [exact Hs|]. split; [exact Hn|].
  rewrite Hn in Hp. split; [exact Hp|].
  apply (Hr false (caller 3)). symmetry. exact Hn.
Defined.

(** ** Runs of the further properties *)

Lemma getters_zero_when_unset_witness :
  filer.GetXAttrSize filer.Entry_zero = 0 /\
  filer.GetXAttrInodeQuota filer.Entry_zero = 0.
Proof.
  destruct (getters_zero_when_unset filer.Entry_zero) as (_ & _ & _ & _ & Hnil).
  destruct (Hnil eq_refl) as (Hs & _ & _ & Hq).
  split; assumption.
Defined.

Lemma inode_getters_read_digits_witness :
  filer.GetXAttrInodeCount (entry_with "/dir" "xattr-inode" "0042") = 42.
Proof.
  assert (Hne : list_ascii_of_string "0042" <> []) by discriminate.
  assert (Hd : Forall is_digit (list_ascii_of_string "0042"))
    by (repeat constructor; vm_compute; discriminate).
  assert (Hv : dec_value (list_ascii_of_string "0042") 0 < 2 ^ 63)
    by (vm_compute; reflexivity).
  destruct (inode_getters_read_digits (entry_with "/dir" "xattr-inode" "0042")
              (list_ascii_of_string "0042") Hne Hd Hv) as [Hc _].
  exact (Hc eq_refl).
Defined.

Lemma inode_getters_wrap_negative_witness :
  filer.GetXAttrInodeCount (entry_with "/dir" "xattr-inode" "-5")
    = 18446744073709551611.
Proof.
  assert (Hb : - 2 ^ 63 <= -5 < 0) by lia.
  destruct (inode_getters_wrap_negative (entry_with "/dir" "xattr-inode" "-5")
              (-5) Hb) as [Hc _].
  exact (Hc eq_refl).
Defined.

Lemma inode_getters_on_decode_error_witness :
  strconv.Atoi "12x" = (0, strconv.ErrSyntax) /\
  filer.GetXAttrInodeCount (entry_with "/dir" "xattr-inode" "12x") = 0.
Proof.
  assert (Ha : strconv.Atoi (map_index
                 (filer.Extended (entry_with "/dir" "xattr-inode" "12x"))
                 "xattr-inode") = (0, Some "invalid syntax")) by reflexivity.
  split; [reflexivity|].
  destruct (inode_getters_on_decode_error
              (entry_with "/dir" "xattr-inode" "12x") 0 "invalid syntax")
    as [Hc _].
  destruct (Hc Ha) as [[_ Hz]|[He _]]; [exact Hz|discriminate He].
Defined.

Lemma wire_roundtrip_whole_witness :
  exists message : filer_pb.Entry,
    filer.ToProtoEntry (Some file_entry) = Return (Some message) /\
    filer.FromPbEntry "/dir" (Some message) = Return file_entry.
Proof.
  exact (wire_roundtrip_whole file_entry "/dir" eq_refl eq_refl).
Defined.

Lemma full_entry_roundtrip_witness :
  exists (full : filer_pb.FullEntry) (message : filer_pb.Entry),
    filer.ToProtoFullEntry (Some file_entry) = Return (Some full) /\
    filer.ToProtoEntry (Some file_entry) = Return (Some message) /\
    filer_pb.Dir full = "/dir" /\
    filer_pb.FullEntry_Entry full = Some message /\
    filer.FromPbEntry (filer_pb.Dir full) (Some message) = Return file_entry.
Proof.
  destruct (full_entry_roundtrip file_entry)
    as (full & message & Hf & Hm & Hd & He & Hback).
  exists full, message.
  split; [exact Hf|]. split; [exact Hm|]. split; [exact Hd|].
  split; [exact He|]. exact (Hback eq_refl eq_refl).
Defined.

Lemma ToExistingProtoEntry_overwrites_witness :
  filer.ToExistingProtoEntry (Some file_entry) (Some sessions.mislabelled)
    = filer.ToProtoEntry (Some file_entry).
Proof.
  destruct (ToExistingProtoEntry_overwrites file_entry sessions.mislabelled
              {| filer_pb.Name := "file"; filer_pb.IsDirectory := false;
                 filer_pb.Chunks := []; filer_pb.Attributes := None;
                 filer_pb.Extended := None; filer_pb.HardLinkId := "";
                 filer_pb.HardLinkCounter := 0; filer_pb.Content := "";
                 filer_pb.RemoteEntry := None; filer_pb.Quota := 0 |} eq_refl)
    as [Hs _].
  exact Hs.
Defined.

Example mislabelled_directory :
  exists entry back,
    filer.FromPbEntry "/dir" (Some sessions.mislabelled) = Return entry /\
    filer.ToProtoEntry (Some entry) = Return (Some back) /\
    filer_pb.IsDirectory sessions.mislabelled = true /\
    filer_pb.IsDirectory back = false.
Proof. eexists. eexists. repeat split. Qed.

Lemma Symlink_success_witness :
  mount.GetPath dir_table 2 = ("/dir", fuse.OK) /\
  mount.filer_calls linked.1 =
    [ {| filer_pb.Directory := "/dir";
         filer_pb.Entry_ := Some (mount.symlink_entry (caller 2) "/dir/target"
                                                      "link" 100 100);
         filer_pb.Signatures := [7] |} ].
Proof.
  assert (Hs : mount.Symlink (session false ∅ dir_table) false (caller 2)
                 "/dir/target" "link" no_reply 100 100
               = Return (linked.1, linked.2, fuse.OK)) by reflexivity.
  destruct (Symlink_success _ _ _ _ _ _ _ _ _ _ Hs)
    as (dirPath & client & t & attributes & table & inode & Hr).
  cbv zeta in Hr. destruct Hr as (_ & _ & Hp & _ & _ & Hcalls & _).
  split; [reflexivity|].
  injection Hp as <-. exact Hcalls.
Defined.

Lemma Symlink_failure_changes_nothing_witness :
  exists wfs',
    mount.Symlink (session true ∅ dir_table) false (caller 2)
                  "/dir/target" "link" no_reply 100 100
      = Return (wfs', no_reply, fuse.ENOSPC) /\
    (mount.metaCache wfs' : gmap string filer.Entry) = ∅ /\
    (mount.inodeToPath wfs' : gmap Z InodeEntry) = dir_table.
Proof.
  eexists. split; [reflexivity|].
  assert (Hne : fuse.ENOSPC <> fuse.OK) by discriminate.
  destruct (Symlink_failure_changes_nothing (session true ∅ dir_table) _ false
              (caller 2) "/dir/target" "link" no_reply no_reply 100 100
              fuse.ENOSPC eq_refl Hne) as (Hc & Ht & _).
  split; [exact Hc|exact Ht].
Defined.

Lemma Symlink_remote_failure_witness :
  exists wfs',
    mount.Symlink sessions.offline_session false (caller 2)
                  "/dir/target" "link" no_reply 100 100
      = Return (wfs', no_reply, fuse.EIO) /\
    length (mount.filer_calls wfs') = 1%nat /\
    (mount.metaCache wfs' : gmap string filer.Entry) = ∅.
Proof.
  destruct (Symlink_remote_failure sessions.offline_session false (caller 2)
              "/dir/target" "link" no_reply 100 100 "/dir"
              (mount.filer sessions.offline_session) "filer unreachable"
              eq_refl eq_refl eq_refl eq_refl)
    as (wfs' & Hr & _ & Hcalls & Hcache & _).
  exists wfs'. split; [exact Hr|]. split; [rewrite Hcalls; reflexivity|exact Hcache].
Defined.

Lemma Symlink_stale_parent_witness :
  exists wfs',
    mount.Symlink (session false ∅ dir_table) false (caller 9)
                  "/dir/target" "link" no_reply 100 100
      = Return (wfs', no_reply, fuse.ENOENT) /\
    mount.filer_calls wfs' = [].
Proof.
  assert (Hne : fuse.ENOENT <> fuse.OK) by discriminate.
  destruct (Symlink_stale_parent (session false ∅ dir_table) false (caller 9)
              "/dir/target" "link" no_reply 100 100 "" fuse.ENOENT
              eq_refl eq_refl eq_refl Hne)
    as (wfs' & Hr & _ & Hcalls & _).
  exists wfs'. split; [exact Hr|exact Hcalls].
Defined.

Lemma Readlink_symlink_witness :
  exists wfs',
    mount.Readlink linked.1 false (caller 3)
      = Return (wfs', (Some "/dir/target", fuse.OK)).
Proof.
  edestruct (Readlink_symlink linked.1 false (caller 3) "/dir/link")
    as (wfs' & Hr & _);
    [reflexivity|reflexivity|reflexivity|vm_compute; reflexivity|].
  exists wfs'. exact Hr.
Defined.

Lemma Readlink_passes_failures_on_witness :
  exists wfs',
    mount.Readlink (session false ∅ dir_table) false (caller 9)
      = Return (wfs', (None, fuse.ENOENT)) /\
    (mount.metaCache wfs' : gmap string filer.Entry) = ∅.
Proof.
  assert (Hne : fuse.ENOENT <> fuse.OK) by discriminate.
  destruct (Readlink_passes_failures_on (session false ∅ dir_table) false
              (caller 9) "" fuse.ENOENT eq_refl) as [Hc _].
  exact (Hc Hne).
Defined.

Lemma Readlink_only_reads_witness :
  exists wfs',
    mount.Readlink linked.1 false (caller 3)
      = Return (wfs', (Some "/dir/target", fuse.OK)) /\
    mount.inodeToPath wfs' = mount.inodeToPath linked.1 /\
    mount.filer_calls wfs' = mount.filer_calls linked.1.
Proof.
  eexists. split; [reflexivity|].
  destruct (Readlink_only_reads linked.1 _ false (caller 3)
              (Some "/dir/target") fuse.OK eq_refl) as (Ht & _ & Hc & _).
  split; [exact Ht|exact Hc].
Defined.

Lemma xattr_roundtrip_witness :
  filer.GetXAttrSize (filer.SetXAttrSize file_entry 1025) = 1025 /\
  filer.GetXAttrSizeQuota (filer.SetXAttrSizeQuota file_entry (-5)) = 0 /\
  filer.GetXAttrInodeCount (filer.SetXAttrInodeCount file_entry 1025) = 1025.
Proof.
  assert (H1 : - 2 ^ 63 <= 1025 < 2 ^ 63) by lia.
  assert (H2 : - 2 ^ 63 <= -5 < 2 ^ 63) by lia.
  destruct (xattr_roundtrip file_entry 1025 H1) as (_ & Hs & _ & Hi & _).
  destruct (xattr_roundtrip file_entry (-5) H2) as (_ & _ & Hq & _).
  split; [exact Hs|]. split; [exact Hq|exact Hi].
Defined.
